(** * IMX377 sensor driver: power sequencing, streaming and controls

    A shallow embedding of [imx377.c].  The driver talks to the kernel
    through regulator, clock, GPIO and I2C calls; each call the driver makes
    is appended to a call history, and the value a call returns is supplied
    by the platform, which may answer differently depending on everything
    that happened before.  Driver functions are computations over a machine
    made of the driver's private record and that history. *)

From Stdlib Require Import ZArith List Bool Lia.
Import ListNotations.
Open Scope Z_scope.

(** ** Constants of the source and of the kernel headers it includes *)

Definition IMX377_STANDBY : Z := 0x3000.
Definition IMX377_REG_MODE_SELECT : Z := 0x0100.
Definition IMX377_REG_GAIN_H : Z := 0x3009.
Definition IMX377_REG_GAIN_L : Z := 0x300A.
Definition IMX377_REG_EXPOSURE_H : Z := 0x300B.
Definition IMX377_REG_EXPOSURE_L : Z := 0x300C.
Definition IMX377_LINK_FREQ_576MHZ : Z := 576000000.

(* errno-base.h *)
Definition EIO : Z := 5.
Definition ENXIO : Z := 6.
Definition EAGAIN : Z := 11.
Definition EINVAL : Z := 22.
(* v4l2-controls.h: V4L2_CID_BASE + 17 and V4L2_CID_IMAGE_SOURCE_CLASS_BASE + 3 *)
Definition V4L2_CID_EXPOSURE : Z := 0x00980911.
Definition V4L2_CID_ANALOGUE_GAIN : Z := 0x009e0903.
(* v4l2-controls.h: V4L2_CID_BASE + 20, a control the driver does not handle *)
Definition V4L2_CID_HFLIP : Z := 0x00980914.
(* media-bus-format.h *)
Definition MEDIA_BUS_FMT_SRGGB12_1X12 : Z := 0x3012.

(** Conversions to the unsigned types of the source. *)
Definition u8 (x : Z) : Z := Z.land x 0xff.
Definition u16 (x : Z) : Z := Z.land x 0xffff.

(** ** Data model *)

Record imx377_mode := {
  width : Z;
  height : Z;
  code : Z;
  hts : Z;
  vts : Z;
  link_freq : Z
}.

Definition imx377_default_mode : imx377_mode := {|
  width := 4056;
  height := 3040;
  code := MEDIA_BUS_FMT_SRGGB12_1X12;
  hts := 0x0172;
  vts := 0x0CB2;
  link_freq := IMX377_LINK_FREQ_576MHZ
|}.

(** The handles the probe routine binds, named after the supply, clock and
    line they are bound to. *)
Inductive regulator := avdd | dvdd | dovdd.
Inductive clk := xclk.
Inductive gpio_desc := reset_line | pwdn_line.

(** [struct imx377].  The three regulators and the clock are always bound
    once the probe succeeded, so the record keeps only what varies: the two
    optional lines (NULL when absent), the current mode and the streaming
    flag.  The record has no field holding a gain or an exposure value:
    [gain_ctrl] and [exp_ctrl] of the source point to objects owned by the
    control framework and are never read again after the probe. *)
Record imx377 := {
  reset_gpio : option gpio_desc;
  pwdn_gpio : option gpio_desc;
  cur_mode : imx377_mode;
  streaming : bool
}.

Definition set_streaming (b : bool) (p : imx377) : imx377 :=
  {| reset_gpio := reset_gpio p; pwdn_gpio := pwdn_gpio p;
     cur_mode := cur_mode p; streaming := b |}.

(** What the driver reads of a [struct v4l2_ctrl]. *)
Record v4l2_ctrl := { id : Z; val : Z }.

(** ** Calls into the kernel *)

Inductive call :=
| regulator_enable (r : regulator)
| regulator_disable (r : regulator)
| clk_prepare_enable (c : clk)
| clk_disable_unprepare (c : clk)
| gpiod_set_value_cansleep (g : gpio_desc) (value : Z)
| usleep_range (lo hi : Z)
| i2c_master_send (buf : list Z) (count : Z)
| i2c_transfer_read (addr_buf : list Z) (len : Z).

(** A history entry: [Returned c r] for a call whose result the driver
    uses, [Done c] for a call that returns nothing or whose result the
    driver discards. *)
Inductive event :=
| Returned (c : call) (r : Z)
| Done (c : call).

Record machine := { priv : imx377; history : list event }.

(** ** The driver monad *)

Definition M (A : Type) : Type := machine -> A * machine.

Definition ret {A} (a : A) : M A := fun m => (a, m).
Definition bind {A B} (c : M A) (k : A -> M B) : M B :=
  fun m => let (a, m1) := c m in k a m1.

Declare Scope drv_scope.
Delimit Scope drv_scope with drv.
Notation "x <- c ;; k" := (bind c (fun x => k))
  (at level 100, c at next level, right associativity) : drv_scope.
Notation "c ;;; k" := (bind c (fun _ => k))
  (at level 100, right associativity) : drv_scope.
Open Scope drv_scope.

Definition get_priv : M imx377 := fun m => (priv m, m).
Definition put_streaming (b : bool) : M unit :=
  fun m => (tt, {| priv := set_streaming b (priv m); history := history m |}).

Definition result {A} (x : A * machine) : A := fst x.
Definition after {A} (x : A * machine) : machine := snd x.

Section Driver.

(** The platform: what a call returns, given the history so far.  C [int]
    results are integers; the driver only compares them with constants,
    negates a constant and combines them with a bitwise or, none of which
    leaves the range of [int]. *)
Variable hw : list event -> call -> Z.

Definition invoke (c : call) : M Z :=
  fun m => let r := hw (history m) c in
           (r, {| priv := priv m; history := history m ++ [Returned c r] |}).

Definition perform (c : call) : M unit :=
  fun m => (tt, {| priv := priv m; history := history m ++ [Done c] |}).

(** *** I2C helpers *)

Definition imx377_write_reg (reg val : Z) : M Z :=
  let reg := u16 reg in
  let val := u8 val in
  let buf := [u8 (Z.shiftr reg 8); u8 (Z.land reg 0xff); val] in
  r <- invoke (i2c_master_send buf 3);;
  ret (if r =? 3 then 0 else if r <? 0 then r else - EIO).

(** The value read lands in the caller's byte; only the status is
    modelled. *)
Definition imx377_read_reg (reg : Z) : M Z :=
  let reg := u16 reg in
  r <- invoke (i2c_transfer_read [u8 (Z.shiftr reg 8); u8 (Z.land reg 0xff)] 1);;
  ret (if r =? 2 then 0 else if r <? 0 then r else - EIO).

(** *** Power management *)

Definition imx377_power_on : M Z :=
  r <- invoke (regulator_enable dvdd);;
  if negb (r =? 0) then ret r else
  r <- invoke (regulator_enable avdd);;
  if negb (r =? 0) then
    (* disable_dvdd *)
    perform (regulator_disable dvdd);;;
    ret r
  else
  r <- invoke (regulator_enable dovdd);;
  if negb (r =? 0) then
    (* disable_avdd *)
    perform (regulator_disable avdd);;;
    perform (regulator_disable dvdd);;;
    ret r
  else
  r <- invoke (clk_prepare_enable xclk);;
  if negb (r =? 0) then
    (* disable_dovdd *)
    perform (regulator_disable dovdd);;;
    perform (regulator_disable avdd);;;
    perform (regulator_disable dvdd);;;
    ret r
  else
  p <- get_priv;;
  match reset_gpio p with
  | Some g => perform (gpiod_set_value_cansleep g 1)
  | None => ret tt
  end;;;
  match pwdn_gpio p with
  | Some g => perform (gpiod_set_value_cansleep g 0)
  | None => ret tt
  end;;;
  perform (usleep_range 5000 10000);;;
  ret 0.

Definition imx377_power_off : M unit :=
  p <- get_priv;;
  match reset_gpio p with
  | Some g => perform (gpiod_set_value_cansleep g 0)
  | None => ret tt
  end;;;
  match pwdn_gpio p with
  | Some g => perform (gpiod_set_value_cansleep g 1)
  | None => ret tt
  end;;;
  perform (clk_disable_unprepare xclk);;;
  perform (regulator_disable dovdd);;;
  perform (regulator_disable avdd);;;
  perform (regulator_disable dvdd).

(** *** Streaming *)

Definition imx377_start_streaming : M Z :=
  r <- imx377_power_on;;
  if negb (r =? 0) then ret r else
  r <- imx377_write_reg IMX377_STANDBY 0x00;;
  if negb (r =? 0) then
    (* err_power *)
    imx377_power_off;;;
    ret r
  else
  r <- imx377_write_reg IMX377_REG_MODE_SELECT 0x01;;
  if negb (r =? 0) then
    (* err_power *)
    imx377_power_off;;;
    ret r
  else
  put_streaming true;;;
  ret 0.

Definition imx377_stop_streaming : M Z :=
  r <- imx377_write_reg IMX377_REG_MODE_SELECT 0x00;;
  put_streaming false;;;
  imx377_power_off;;;
  ret r.

(** *** Control operations *)

Definition imx377_set_ctrl (ctrl : v4l2_ctrl) : M Z :=
  p <- get_priv;;
  if negb (streaming p) then ret 0 (* defer until streaming *) else
  if id ctrl =? V4L2_CID_EXPOSURE then
    r1 <- imx377_write_reg IMX377_REG_EXPOSURE_H
            (Z.land (Z.shiftr (val ctrl) 8) 0xFF);;
    r2 <- imx377_write_reg IMX377_REG_EXPOSURE_L (Z.land (val ctrl) 0xFF);;
    ret (Z.lor r1 r2)
  else if id ctrl =? V4L2_CID_ANALOGUE_GAIN then
    r1 <- imx377_write_reg IMX377_REG_GAIN_H
            (Z.land (Z.shiftr (val ctrl) 8) 0x07);;
    r2 <- imx377_write_reg IMX377_REG_GAIN_L (Z.land (val ctrl) 0xFF);;
    ret (Z.lor r1 r2)
  else ret 0.

End Driver.

Arguments invoke hw c m /.
Arguments perform c m /.

(** ** The platform's view of the power resources

    A rail or the clock is on after an enable call that returned 0 and off
    after a disable call; a failed enable and every other call leave it as it
    was.  The driver discards the status of a disable, which is taken to
    switch the resource off. *)

Inductive resource := Rail (r : regulator) | Clock (c : clk).

Definition resource_eqb (x y : resource) : bool :=
  match x, y with
  | Rail avdd, Rail avdd | Rail dvdd, Rail dvdd | Rail dovdd, Rail dovdd => true
  | Clock xclk, Clock xclk => true
  | _, _ => false
  end.

Definition enable_call (x : resource) : call :=
  match x with
  | Rail r => regulator_enable r
  | Clock c => clk_prepare_enable c
  end.

Definition disable_call (x : resource) : call :=
  match x with
  | Rail r => regulator_disable r
  | Clock c => clk_disable_unprepare c
  end.

(** The order in which [imx377_power_on] acquires the resources. *)
Definition power_steps : list resource :=
  [Rail dvdd; Rail avdd; Rail dovdd; Clock xclk].

Inductive effect := SwitchOn (x : resource) | SwitchOff (x : resource) | NoEffect.

Definition effect_of (e : event) : effect :=
  match e with
  | Returned (regulator_enable r) z => if z =? 0 then SwitchOn (Rail r) else NoEffect
  | Returned (clk_prepare_enable c) z => if z =? 0 then SwitchOn (Clock c) else NoEffect
  | Returned (regulator_disable r) _ | Done (regulator_disable r) => SwitchOff (Rail r)
  | Returned (clk_disable_unprepare c) _ | Done (clk_disable_unprepare c) =>
      SwitchOff (Clock c)
  | _ => NoEffect
  end.

Definition track (x : resource) (on : bool) (e : event) : bool :=
  match effect_of e with
  | SwitchOn y => if resource_eqb x y then true else on
  | SwitchOff y => if resource_eqb x y then false else on
  | NoEffect => on
  end.

(** Whether [x] is on after the history [h], every resource being off
    before the first call. *)
Definition enabled (h : list event) (x : resource) : bool :=
  fold_left (track x) h false.

Definition all_off (h : list event) : Prop := forall x, enabled h x = false.
Definition all_on (h : list event) : Prop := forall x, enabled h x = true.

(** The disable calls of [es] that hit a resource which is off at that
    point, [h] being the history before [es]. *)
Fixpoint idle_disables (h : list event) (es : list event) : list resource :=
  match es with
  | [] => []
  | e :: es' =>
      match effect_of e with
      | SwitchOff x => if enabled h x then [] else [x]
      | _ => []
      end ++ idle_disables (h ++ [e]) es'
  end.

(** The register writes of a history: each 3-byte send as (register, value). *)
Fixpoint reg_writes (h : list event) : list (Z * Z) :=
  match h with
  | [] => []
  | Returned (i2c_master_send [hi; lo; v] _) _ :: h' =>
      (Z.lor (Z.shiftl hi 8) lo, v) :: reg_writes h'
  | _ :: h' => reg_writes h'
  end.

(** The driver never reads the gain back.  This is the decoding that the
    round-trip property pairs with the encoding of [imx377_set_ctrl]:
    [high << 8 | low]. *)
Definition decode_gain (high low : Z) : Z := Z.lor (Z.shiftl high 8) low.

(** ** The calls of the driver's functions *)

(** The three bytes [imx377_write_reg] puts on the bus. *)
Definition wire (reg v : Z) : list Z := [Z.shiftr reg 8; Z.land reg 0xff; v].

(** The status [imx377_write_reg] makes of the count the bus reports. *)
Definition write_status (moved : Z) : Z :=
  if moved =? 3 then 0 else if moved <? 0 then moved else - EIO.

Definition line_calls (g : option gpio_desc) (value : Z) : list event :=
  match g with
  | Some d => [Done (gpiod_set_value_cansleep d value)]
  | None => []
  end.

(** The calls of one [imx377_power_off], in the order they are made. *)
Definition power_off_calls (p : imx377) : list event :=
  line_calls (reset_gpio p) 0 ++ line_calls (pwdn_gpio p) 1 ++
  map (fun x => Done (disable_call x)) (rev power_steps).

(** The calls of an [imx377_power_on] that succeeds. *)
Definition power_on_calls (p : imx377) : list event :=
  map (fun x => Returned (enable_call x) 0) power_steps ++
  line_calls (reset_gpio p) 1 ++ line_calls (pwdn_gpio p) 0 ++
  [Done (usleep_range 5000 10000)].

(** The calls of an [imx377_power_on] that fails at step [k] (counted from
    0) with status [r]. *)
Definition failed_power_on_calls (k : nat) (r : Z) : list event :=
  map (fun x => Returned (enable_call x) 0) (firstn k power_steps) ++
  map (fun x => Returned (enable_call x) r) (firstn 1 (skipn k power_steps)) ++
  map (fun x => Done (disable_call x)) (rev (firstn k power_steps)).

(** ** Concrete boards and platforms *)

(** A board with both optional lines wired, as the probe leaves it. *)
Definition board : imx377 := {|
  reset_gpio := Some reset_line;
  pwdn_gpio := Some pwdn_line;
  cur_mode := imx377_default_mode;
  streaming := false
|}.

Definition idle : machine := {| priv := board; history := [] |}.

(** A platform on which every call succeeds. *)
Definition hw_ok (_ : list event) (c : call) : Z :=
  match c with
  | i2c_master_send _ count => count
  | i2c_transfer_read _ _ => 2
  | _ => 0
  end.

(** The clock refuses to start. *)
Definition hw_clk_fails (_ : list event) (c : call) : Z :=
  match c with
  | clk_prepare_enable _ => - EINVAL
  | i2c_master_send _ count => count
  | i2c_transfer_read _ _ => 2
  | _ => 0
  end.

(** The sensor does not acknowledge a write to the mode-select register. *)
Definition hw_mode_select_nack (_ : list event) (c : call) : Z :=
  match c with
  | i2c_master_send buf count =>
      if (nth 0 buf 0 =? 0x01) && (nth 1 buf 0 =? 0x00) then - ENXIO else count
  | i2c_transfer_read _ _ => 2
  | _ => 0
  end.

(** Only one byte of each send gets through. *)
Definition hw_short (_ : list event) (c : call) : Z :=
  match c with
  | i2c_master_send _ _ => 1
  | i2c_transfer_read _ _ => 1
  | _ => 0
  end.

(** The first send of a pair loses arbitration, the second is not
    acknowledged. *)
Definition hw_both_fail (_ : list event) (c : call) : Z :=
  match c with
  | i2c_master_send buf _ =>
      if Z.even (nth 1 buf 0) then - ENXIO else - EAGAIN
  | i2c_transfer_read _ _ => 2
  | _ => 0
  end.

(** The board once [imx377_start_streaming] has succeeded. *)
Definition live : machine := after (imx377_start_streaming hw_ok idle).

(** The board powered up and then torn down once. *)
Definition torn_down : machine := after (imx377_power_off live).

(** The three sends of the streaming functions. *)
Definition standby_send : call := i2c_master_send (wire IMX377_STANDBY 0x00) 3.
Definition stream_on_send : call :=
  i2c_master_send (wire IMX377_REG_MODE_SELECT 0x01) 3.
Definition stream_off_send : call :=
  i2c_master_send (wire IMX377_REG_MODE_SELECT 0x00) 3.

(** The sensor does not acknowledge a write to the standby register. *)
Definition hw_standby_nack (_ : list event) (c : call) : Z :=
  match c with
  | i2c_master_send buf count =>
      if (nth 0 buf 0 =? 0x30) && (nth 1 buf 0 =? 0x00) then - ENXIO else count
  | i2c_transfer_read _ _ => 2
  | _ => 0
  end.

(** ** Net effect of a run on a power resource

    The successful enables of [x] among the events [es], minus its disables:
    what a reference count of the resource would move by. *)
Fixpoint net_enables (x : resource) (es : list event) : Z :=
  match es with
  | [] => 0
  | e :: es' =>
      match effect_of e with
      | SwitchOn y => if resource_eqb x y then 1 else 0
      | SwitchOff y => if resource_eqb x y then -1 else 0
      | NoEffect => 0
      end + net_enables x es'
  end.

(** ** Format negotiation *)

(* videodev2.h *)
Definition V4L2_FIELD_NONE : Z := 1.
Definition V4L2_COLORSPACE_RAW : Z := 11.
(* v4l2-subdev.h *)
Definition V4L2_SUBDEV_FORMAT_TRY : Z := 0.
Definition V4L2_SUBDEV_FORMAT_ACTIVE : Z := 1.

(** [struct v4l2_mbus_framefmt], without its reserved words. *)
Module mbus.
Record framefmt := {
  width : Z;
  height : Z;
  code : Z;
  field : Z;
  colorspace : Z;
  ycbcr_enc : Z;
  quantization : Z;
  xfer_func : Z;
  flags : Z
}.
End mbus.

(** [struct v4l2_subdev_format], without its reserved words. *)
Record v4l2_subdev_format := {
  which : Z;
  pad : Z;
  format : mbus.framefmt
}.

Definition put_cur_mode (mode : imx377_mode) : M unit :=
  fun m => (tt, {| priv := {| reset_gpio := reset_gpio (priv m);
                              pwdn_gpio := pwdn_gpio (priv m);
                              cur_mode := mode;
                              streaming := streaming (priv m) |};
                   history := history m |}).

(** The format is filled in place in the source; here the filled format is
    returned beside the status.  The pad configuration is not looked at. *)
Definition imx377_get_fmt (fmt : v4l2_subdev_format)
  : M (Z * v4l2_subdev_format) :=
  p <- get_priv;;
  let mode := cur_mode p in
  ret (0, {| which := which fmt;
             pad := pad fmt;
             format := {| mbus.code := code mode;
                          mbus.width := width mode;
                          mbus.height := height mode;
                          mbus.field := V4L2_FIELD_NONE;
                          mbus.colorspace := V4L2_COLORSPACE_RAW;
                          mbus.ycbcr_enc := mbus.ycbcr_enc (format fmt);
                          mbus.quantization := mbus.quantization (format fmt);
                          mbus.xfer_func := mbus.xfer_func (format fmt);
                          mbus.flags := mbus.flags (format fmt) |} |}).

Definition imx377_set_fmt (fmt : v4l2_subdev_format)
  : M (Z * v4l2_subdev_format) :=
  (* Only one fixed mode for now *)
  put_cur_mode imx377_default_mode;;;
  imx377_get_fmt fmt.

(** A format request for a geometry the sensor does not have. *)
Definition vga_request : v4l2_subdev_format := {|
  which := V4L2_SUBDEV_FORMAT_TRY;
  pad := 0;
  format := {| mbus.width := 640; mbus.height := 480; mbus.code := 0x1008;
               mbus.field := 4; mbus.colorspace := 8; mbus.ycbcr_enc := 1;
               mbus.quantization := 2; mbus.xfer_func := 3; mbus.flags := 0 |}
|}.

(** ** Probe

    The probe routine talks to the device-managed allocators and to the
    control, sub-device and media frameworks.  Its calls are kept in a
    history of their own.  The remove routine reaches its three objects
    through the client data pointer, which is a matter of memory layout and
    is not modelled.  A call that returns a pointer is answered with
    the pointer read as a signed integer: 0 is NULL and the values from
    [-MAX_ERRNO] to -1 are the error pointers. *)
Module Probe.

(* errno-base.h, errno.h, err.h *)
Definition ENOMEM : Z := 12.
Definition EPROBE_DEFER : Z := 517.
Definition MAX_ERRNO : Z := 4095.
(* v4l2-subdev.h, media.h *)
Definition V4L2_SUBDEV_FL_HAS_DEVNODE : Z := 4.
Definition MEDIA_PAD_FL_SOURCE : Z := 2.
Definition MEDIA_ENT_F_CAM_SENSOR : Z := 0x00020001.

Definition IS_ERR (p : Z) : bool := (- MAX_ERRNO <=? p) && (p <? 0).

Inductive gpiod_flags := GPIOD_OUT_LOW | GPIOD_OUT_HIGH.

(** The calls of the probe and its stores into the sub-device and pad
    objects, which the frameworks read; then the three calls that take down
    what the probe sets up, none of which the probe makes. *)
Inductive kcall :=
| devm_kzalloc
| mutex_init
| devm_regulator_get (supply : regulator)
| devm_clk_get (c : clk)
| clk_set_rate (c : clk) (rate : Z)
| devm_gpiod_get_optional (line : gpio_desc) (flags : gpiod_flags)
| v4l2_ctrl_handler_init (nr_of_controls_hint : Z)
| v4l2_ctrl_new_std (cid min max step def : Z)
| store_sd_ctrl_handler
| load_ctrls_error
| v4l2_i2c_subdev_init
| or_sd_flags (bits : Z)
| store_pad_flags (bits : Z)
| media_entity_pads_init (num_pads : Z)
| store_entity_function (f : Z)
| v4l2_async_register_subdev
| dev_info
| v4l2_async_unregister_subdev
| media_entity_cleanup
| v4l2_ctrl_handler_free.

Inductive kevent :=
| Got (c : kcall) (r : Z)
| Did (c : kcall).

Definition P (A : Type) : Type := list kevent -> A * list kevent.
Definition pret {A} (a : A) : P A := fun h => (a, h).
Definition pbind {A B} (c : P A) (k : A -> P B) : P B :=
  fun h => let (a, h1) := c h in k a h1.

Declare Scope probe_scope.
Notation "x <- c ;; k" := (pbind c (fun x => k))
  (at level 100, c at next level, right associativity) : probe_scope.
Notation "c ;;; k" := (pbind c (fun _ => k))
  (at level 100, right associativity) : probe_scope.
Local Open Scope probe_scope.

Section Routines.

Variable fw : list kevent -> kcall -> Z.

Definition ask (c : kcall) : P Z :=
  fun h => let r := fw h c in (r, h ++ [Got c r]).
Definition tell (c : kcall) : P unit := fun h => (tt, h ++ [Did c]).

(** The record the probe has filled by the time it registers the
    sub-device: the zeroed allocation with the default mode and the two line
    pointers, a line being present when its pointer is not NULL. *)
Definition probed (reset pwdn : Z) : imx377 := {|
  reset_gpio := if reset =? 0 then None else Some reset_line;
  pwdn_gpio := if pwdn =? 0 then None else Some pwdn_line;
  cur_mode := imx377_default_mode;
  streaming := false
|}.

(** The status, and on success the private record; on failure the managed
    allocation goes away with the device. *)
Definition imx377_probe : P (Z * option imx377) :=
  priv <- ask devm_kzalloc;;
  if priv =? 0 then pret (- ENOMEM, None) else
  tell mutex_init;;;
  (* Regulators *)
  a <- ask (devm_regulator_get avdd);;
  d <- ask (devm_regulator_get dvdd);;
  o <- ask (devm_regulator_get dovdd);;
  if IS_ERR a || IS_ERR d || IS_ERR o then pret (- EPROBE_DEFER, None) else
  (* Clock *)
  x <- ask (devm_clk_get xclk);;
  if IS_ERR x then pret (- EPROBE_DEFER, None) else
  tell (clk_set_rate xclk 24000000);;;
  (* GPIOs *)
  rg <- ask (devm_gpiod_get_optional reset_line GPIOD_OUT_LOW);;
  pg <- ask (devm_gpiod_get_optional pwdn_line GPIOD_OUT_HIGH);;
  (* V4L2 ctrl handler *)
  tell (v4l2_ctrl_handler_init 2);;;
  tell (v4l2_ctrl_new_std V4L2_CID_ANALOGUE_GAIN 0 0x7A5 1 0);;;
  tell (v4l2_ctrl_new_std V4L2_CID_EXPOSURE 1 0xFFFF 1 0x03E8);;;
  tell store_sd_ctrl_handler;;;
  e <- ask load_ctrls_error;;
  if negb (e =? 0) then pret (e, None) else
  (* Subdev *)
  tell v4l2_i2c_subdev_init;;;
  tell (or_sd_flags V4L2_SUBDEV_FL_HAS_DEVNODE);;;
  (* Pad *)
  tell (store_pad_flags MEDIA_PAD_FL_SOURCE);;;
  r <- ask (media_entity_pads_init 1);;
  if negb (r =? 0) then pret (r, None) else
  tell (store_entity_function MEDIA_ENT_F_CAM_SENSOR);;;
  (* Register subdev *)
  r <- ask v4l2_async_register_subdev;;
  if negb (r =? 0) then pret (r, None) else
  tell dev_info;;;
  pret (0, Some (probed rg pg)).

End Routines.

(** The calls of a probe that succeeds, given what the seven lookups
    answered. *)
Definition success_calls (p a d o x rg pg : Z) : list kevent :=
  [Got devm_kzalloc p;
   Did mutex_init;
   Got (devm_regulator_get avdd) a;
   Got (devm_regulator_get dvdd) d;
   Got (devm_regulator_get dovdd) o;
   Got (devm_clk_get xclk) x;
   Did (clk_set_rate xclk 24000000);
   Got (devm_gpiod_get_optional reset_line GPIOD_OUT_LOW) rg;
   Got (devm_gpiod_get_optional pwdn_line GPIOD_OUT_HIGH) pg;
   Did (v4l2_ctrl_handler_init 2);
   Did (v4l2_ctrl_new_std V4L2_CID_ANALOGUE_GAIN 0 0x7A5 1 0);
   Did (v4l2_ctrl_new_std V4L2_CID_EXPOSURE 1 0xFFFF 1 0x03E8);
   Did store_sd_ctrl_handler;
   Got load_ctrls_error 0;
   Did v4l2_i2c_subdev_init;
   Did (or_sd_flags V4L2_SUBDEV_FL_HAS_DEVNODE);
   Did (store_pad_flags MEDIA_PAD_FL_SOURCE);
   Got (media_entity_pads_init 1) 0;
   Did (store_entity_function MEDIA_ENT_F_CAM_SENSOR);
   Got v4l2_async_register_subdev 0;
   Did dev_info].


Definition taken_down_by (e : kevent) : option kcall :=
  match e with
  | Did v4l2_ctrl_handler_free => Some v4l2_ctrl_handler_free
  | Did media_entity_cleanup => Some media_entity_cleanup
  | Did v4l2_async_unregister_subdev => Some v4l2_async_unregister_subdev
  | _ => None
  end.

Fixpoint collect {A} (f : kevent -> option A) (h : list kevent) : list A :=
  match h with
  | [] => []
  | e :: h' =>
      match f e with
      | Some a => a :: collect f h'
      | None => collect f h'
      end
  end.

(** A firmware on which every lookup finds its object and every call
    succeeds; both optional lines are wired. *)
Definition fw_ok (_ : list kevent) (c : kcall) : Z :=
  match c with
  | devm_kzalloc => 0x1000
  | devm_regulator_get avdd => 0x2000
  | devm_regulator_get dvdd => 0x2100
  | devm_regulator_get dovdd => 0x2200
  | devm_clk_get _ => 0x3000
  | devm_gpiod_get_optional reset_line _ => 0x4000
  | devm_gpiod_get_optional pwdn_line _ => 0x4100
  | _ => 0
  end.


(** The analog supply is not described: its lookup gives [-ENODEV]. *)
Definition fw_no_avdd (h : list kevent) (c : kcall) : Z :=
  match c with
  | devm_regulator_get avdd => -19
  | _ => fw_ok h c
  end.

(** The clock lookup gives [-ENOENT]. *)
Definition fw_no_clk (h : list kevent) (c : kcall) : Z :=
  match c with
  | devm_clk_get _ => -2
  | _ => fw_ok h c
  end.

(** The reset line is described wrongly: its lookup gives [-EINVAL]. *)
Definition fw_bad_reset (h : list kevent) (c : kcall) : Z :=
  match c with
  | devm_gpiod_get_optional reset_line _ => -22
  | _ => fw_ok h c
  end.


End Probe.

(** ** Proof steps for the probe *)

(** Unfolds a run of the probe, splits on its next test, and brings a
    history to the form [h ++ [e1; ...; en]]. *)
Ltac probe_unfold :=
  unfold Probe.imx377_probe, Probe.pbind, Probe.ask, Probe.tell, Probe.pret;
  cbn [fst snd].

Ltac probe_branch :=
  match goal with
  | |- context [if ?c then _ else _] =>
      let E := fresh "E" in destruct c eqn:E; cbn [fst snd]
  end.

Ltac flat := repeat (rewrite <- app_assoc; cbn [app]).
Tactic Notation "flat" "in" hyp(H) :=
  repeat (rewrite <- app_assoc in H; cbn [app] in H).

(** ** Bytes and words *)

Lemma u8_mod x : u8 x = x mod 256.
Proof. unfold u8. change 0xff with (Z.ones 8). now rewrite Z.land_ones. Qed.

Lemma u16_mod x : u16 x = x mod 65536.
Proof. unfold u16. change 0xffff with (Z.ones 16). now rewrite Z.land_ones. Qed.

Lemma u8_small x : 0 <= x < 256 -> u8 x = x.
Proof. intros H. rewrite u8_mod. now apply Z.mod_small. Qed.

Lemma u16_small x : 0 <= x < 65536 -> u16 x = x.
Proof. intros H. rewrite u16_mod. now apply Z.mod_small. Qed.

Lemma u8_range x : 0 <= u8 x < 256.
Proof. rewrite u8_mod. apply Z.mod_pos_bound. lia. Qed.

Lemma land_ff_range x : 0 <= Z.land x 0xff < 256.
Proof. apply (u8_range x). Qed.

Lemma land_7_range x : 0 <= Z.land x 0x07 < 8.
Proof.
  change 0x07 with (Z.ones 3). rewrite Z.land_ones by lia.
  apply Z.mod_pos_bound. lia.
Qed.

Lemma shiftr8_range x : 0 <= x < 65536 -> 0 <= Z.shiftr x 8 < 256.
Proof.
  intros H. rewrite Z.shiftr_div_pow2 by lia. change (2 ^ 8) with 256.
  split; [apply Z.div_pos; lia | apply Z.div_lt_upper_bound; lia].
Qed.

Lemma write_reg_run hw reg v m :
  0 <= reg < 65536 -> 0 <= v < 256 ->
  imx377_write_reg hw reg v m =
    let r := hw (history m) (i2c_master_send (wire reg v) 3) in
    (if r =? 3 then 0 else if r <? 0 then r else - EIO,
     {| priv := priv m;
        history := history m ++ [Returned (i2c_master_send (wire reg v) 3) r] |}).
Proof.
  intros Hreg Hv. unfold imx377_write_reg, bind, ret, invoke, wire.
  rewrite (u16_small reg Hreg), (u8_small v Hv).
  rewrite (u8_small _ (shiftr8_range reg Hreg)).
  rewrite (u8_small _ (land_ff_range reg)).
  reflexivity.
Qed.

(** ** Register transport *)

(** C9.  A register write is one bus transaction of the three bytes
    address-high, address-low, value.  It succeeds exactly when the bus
    reports 3 bytes moved, yields the short-transfer error [-EIO] when the bus
    reports a count from 0 to 2, and hands back the bus's own error code when
    that is negative. *)
Theorem write_reg_one_transaction :
  forall hw m reg v, 0 <= reg < 65536 -> 0 <= v < 256 ->
    let sent := i2c_master_send [Z.shiftr reg 8; Z.land reg 0xff; v] 3 in
    let moved := hw (history m) sent in
    let run := imx377_write_reg hw reg v m in
    history (after run) = history m ++ [Returned sent moved] /\
    priv (after run) = priv m /\
    (result run = 0 <-> moved = 3) /\
    (0 <= moved < 3 -> result run = - EIO) /\
    (moved < 0 -> result run = moved).
Proof.
  intros hw m reg v Hreg Hv sent moved run. subst run.
  rewrite (write_reg_run hw reg v m Hreg Hv).
  fold (wire reg v). cbv zeta. unfold result, after; cbn [fst snd priv history].
  unfold wire in *. fold sent. fold moved.
  repeat split; trivial.
  - destruct (Z.eqb_spec moved 3); [trivial|].
    destruct (Z.ltb_spec moved 0); unfold EIO; lia.
  - intros ->. reflexivity.
  - intros H. destruct (Z.eqb_spec moved 3); [lia|].
    destruct (Z.ltb_spec moved 0); [lia | reflexivity].
  - intros H. destruct (Z.eqb_spec moved 3); [lia|].
    destruct (Z.ltb_spec moved 0); [reflexivity | lia].
Qed.

(** ** Power sequencing *)

Lemma enabled_app h es x :
  enabled (h ++ es) x = fold_left (track x) es (enabled h x).
Proof. unfold enabled. apply fold_left_app. Qed.

Lemma power_off_run m :
  imx377_power_off m =
    (tt, {| priv := priv m; history := history m ++ power_off_calls (priv m) |}).
Proof.
  unfold imx377_power_off, power_off_calls, line_calls, bind, get_priv, ret.
  destruct m as [p h]; cbn [priv history].
  destruct (reset_gpio p), (pwdn_gpio p); cbn [perform priv history];
    repeat rewrite <- app_assoc; reflexivity.
Qed.

Lemma line_calls_track x on g v :
  fold_left (track x) (line_calls g v) on = on.
Proof. destruct g; reflexivity. Qed.

Lemma power_off_calls_off h p x : enabled (h ++ power_off_calls p) x = false.
Proof.
  rewrite enabled_app. unfold power_off_calls.
  rewrite !fold_left_app, !line_calls_track.
  destruct x as [[ | | ]|[]]; cbn; reflexivity.
Qed.



Lemma power_on_success hw m :
  result (imx377_power_on hw m) = 0 ->
  after (imx377_power_on hw m) =
    {| priv := priv m; history := history m ++ power_on_calls (priv m) |}.
Proof.
  unfold imx377_power_on, bind, ret, get_priv, result, after, power_on_calls.
  cbn [invoke perform priv history fst snd].
  remember (hw (history m) (regulator_enable dvdd)) as r1 eqn:R1.
  destruct (Z.eqb_spec r1 0) as [E1|N1]; cbn [negb fst snd perform priv history]; [|intros; congruence].
  rewrite E1 in *. clear E1.
  remember (hw (history m ++ [Returned (regulator_enable dvdd) 0])
               (regulator_enable avdd)) as r2 eqn:R2.
  destruct (Z.eqb_spec r2 0) as [E2|N2]; cbn [negb fst snd perform priv history]; [|intros; congruence].
  rewrite E2 in *. clear E2.
  match goal with |- context [hw ?h (regulator_enable dovdd)] =>
    remember (hw h (regulator_enable dovdd)) as r3 eqn:R3 end.
  destruct (Z.eqb_spec r3 0) as [E3|N3]; cbn [negb fst snd perform priv history]; [|intros; congruence].
  rewrite E3 in *. clear E3.
  match goal with |- context [hw ?h (clk_prepare_enable xclk)] =>
    remember (hw h (clk_prepare_enable xclk)) as r4 eqn:R4 end.
  destruct (Z.eqb_spec r4 0) as [E4|N4]; cbn [negb fst snd perform priv history]; [|intros; congruence].
  rewrite E4 in *. clear E4. intros _.
  destruct (reset_gpio (priv m)), (pwdn_gpio (priv m));
    cbn [perform fst snd priv history line_calls power_steps map enable_call app];
    rewrite <- !app_assoc; reflexivity.
Qed.

(** ** Streaming *)

Lemma write_reg_const hw reg v m :
  0 <= reg < 65536 -> 0 <= v < 256 ->
  imx377_write_reg hw reg v m =
    (write_status (hw (history m) (i2c_master_send (wire reg v) 3)),
     {| priv := priv m;
        history := history m ++
          [Returned (i2c_master_send (wire reg v) 3)
                    (hw (history m) (i2c_master_send (wire reg v) 3))] |}).
Proof. intros Hreg Hv. now rewrite write_reg_run. Qed.

(** C3.  Whatever the bus answers to the mode-select write,
    [imx377_stop_streaming] clears the streaming flag and then runs
    [imx377_power_off]; every power resource is off when it returns, and the
    status returned is the one of the write. *)
Theorem stop_streaming_always_powers_off :
  forall hw m,
    let sent := i2c_master_send (wire IMX377_REG_MODE_SELECT 0x00) 3 in
    let moved := hw (history m) sent in
    let run := imx377_stop_streaming hw m in
    after run =
      after (imx377_power_off
               {| priv := set_streaming false (priv m);
                  history := history m ++ [Returned sent moved] |}) /\
    history (after run) =
      history m ++ [Returned sent moved]
      ++ power_off_calls (set_streaming false (priv m)) /\
    streaming (priv (after run)) = false /\
    all_off (history (after run)) /\
    result run = write_status moved.
Proof.
  intros hw m sent moved run. subst run.
  unfold imx377_stop_streaming, bind, result, after.
  rewrite write_reg_const by (unfold IMX377_REG_MODE_SELECT; lia).
  fold sent. fold moved. unfold put_streaming, ret. cbn [priv history].
  rewrite power_off_run. cbn [fst snd priv history].
  rewrite <- app_assoc.
  repeat (split; trivial).
  all: unfold all_off; intros; rewrite app_assoc; apply power_off_calls_off.
Qed.

(** ** Teardown without bookkeeping *)

Lemma idle_disables_app h es1 es2 :
  idle_disables h (es1 ++ es2) =
  idle_disables h es1 ++ idle_disables (h ++ es1) es2.
Proof.
  revert h. induction es1 as [|e es1 IH]; intros h; cbn [idle_disables app].
  - now rewrite app_nil_r.
  - rewrite IH, <- !app_assoc. reflexivity.
Qed.

Lemma idle_disables_lines h g v : idle_disables h (line_calls g v) = [].
Proof. destruct g; reflexivity. Qed.

Lemma enabled_lines h g v x : enabled (h ++ line_calls g v) x = enabled h x.
Proof. rewrite enabled_app. apply line_calls_track. Qed.

(** The four disables of a teardown each hit a different resource, so the
    ones that find their resource off are those whose resource was off when
    the teardown began. *)
Lemma idle_disables_teardown h :
  idle_disables h (map (fun x => Done (disable_call x)) (rev power_steps)) =
  filter (fun x => negb (enabled h x)) (rev power_steps).
Proof.
  cbn [power_steps rev app map disable_call idle_disables effect_of filter].
  rewrite !enabled_app.
  cbn [fold_left track effect_of resource_eqb].
  destruct (enabled h (Clock xclk)), (enabled h (Rail dovdd)),
    (enabled h (Rail avdd)), (enabled h (Rail dvdd)); reflexivity.
Qed.

Lemma idle_disables_power_off h p :
  idle_disables h (power_off_calls p) =
  filter (fun x => negb (enabled h x)) (rev power_steps).
Proof.
  unfold power_off_calls.
  rewrite !idle_disables_app, !idle_disables_lines. cbn [app].
  rewrite idle_disables_teardown.
  apply filter_ext. intros x. now rewrite !enabled_lines.
Qed.

(** C4, as the code has it.  [imx377_power_off] keeps no record of what is
    on: each call makes the four disable calls (clock, dovdd, avdd, dvdd),
    whatever the state of the resources, so every resource that is off when
    it is called is disabled again; in particular the second of two calls in
    a row disables all four resources a second time. *)
Theorem power_off_disables_unconditionally :
  forall m,
    let m1 := after (imx377_power_off m) in
    let m2 := after (imx377_power_off m1) in
    history m1 = history m ++ power_off_calls (priv m) /\
    priv m1 = priv m /\
    idle_disables (history m) (power_off_calls (priv m)) =
      filter (fun x => negb (enabled (history m) x)) (rev power_steps) /\
    history m2 = history m1 ++ power_off_calls (priv m) /\
    idle_disables (history m1) (power_off_calls (priv m)) = rev power_steps.
Proof.
  intros m m1 m2. subst m2 m1. unfold after.
  rewrite !power_off_run. cbn [fst snd priv history].
  repeat (split; trivial).
  - apply idle_disables_power_off.
  - rewrite idle_disables_power_off.
    cbn [power_steps rev app filter].
    now rewrite !power_off_calls_off.
Qed.

(** ** Controls *)

(** Both register writes of a control are made, whatever the first one
    returned, and the status is the bitwise or of the two. *)
Lemma set_ctrl_exposure_run hw m v :
  streaming (priv m) = true ->
  let c1 := i2c_master_send
              (wire IMX377_REG_EXPOSURE_H (Z.land (Z.shiftr v 8) 0xFF)) 3 in
  let c2 := i2c_master_send (wire IMX377_REG_EXPOSURE_L (Z.land v 0xFF)) 3 in
  let s1 := hw (history m) c1 in
  let s2 := hw (history m ++ [Returned c1 s1]) c2 in
  imx377_set_ctrl hw {| id := V4L2_CID_EXPOSURE; val := v |} m =
    (Z.lor (write_status s1) (write_status s2),
     {| priv := priv m;
        history := history m ++ [Returned c1 s1; Returned c2 s2] |}).
Proof.
  intros Hs c1 c2 s1 s2.
  unfold imx377_set_ctrl, bind, get_priv, ret. rewrite Hs.
  cbn [negb id val]. rewrite Z.eqb_refl.
  rewrite write_reg_const
    by (first [unfold IMX377_REG_EXPOSURE_H; lia | apply land_ff_range]).
  rewrite write_reg_const
    by (first [unfold IMX377_REG_EXPOSURE_L; lia | apply land_ff_range]).
  cbn [priv history]. rewrite <- app_assoc. reflexivity.
Qed.

Lemma set_ctrl_gain_run hw m v :
  streaming (priv m) = true ->
  let c1 := i2c_master_send
              (wire IMX377_REG_GAIN_H (Z.land (Z.shiftr v 8) 0x07)) 3 in
  let c2 := i2c_master_send (wire IMX377_REG_GAIN_L (Z.land v 0xFF)) 3 in
  let s1 := hw (history m) c1 in
  let s2 := hw (history m ++ [Returned c1 s1]) c2 in
  imx377_set_ctrl hw {| id := V4L2_CID_ANALOGUE_GAIN; val := v |} m =
    (Z.lor (write_status s1) (write_status s2),
     {| priv := priv m;
        history := history m ++ [Returned c1 s1; Returned c2 s2] |}).
Proof.
  intros Hs c1 c2 s1 s2.
  unfold imx377_set_ctrl, bind, get_priv, ret. rewrite Hs.
  cbn [negb id val].
  change (V4L2_CID_ANALOGUE_GAIN =? V4L2_CID_EXPOSURE) with false.
  rewrite Z.eqb_refl. cbv iota.
  rewrite write_reg_const.
  2: unfold IMX377_REG_GAIN_H; lia.
  2:{ pose proof (land_7_range (Z.shiftr v 8)). lia. }
  rewrite write_reg_const
    by (first [unfold IMX377_REG_GAIN_L; lia | apply land_ff_range]).
  cbn [priv history]. rewrite <- app_assoc. reflexivity.
Qed.

(** When a single one of the two writes fails, the status is that write's. *)
Lemma set_ctrl_single_failure s1 s2 :
  (s1 = 0 -> Z.lor s1 s2 = s2) /\ (s2 = 0 -> Z.lor s1 s2 = s1) /\
  (s1 = s2 -> Z.lor s1 s2 = s1).
Proof.
  repeat split; intros; subst;
    [apply Z.lor_0_l | apply Z.lor_0_r | apply Z.lor_diag].
Qed.

(** C6.  On a streaming device, setting the exposure to [v] makes exactly
    two calls, both register writes: [(v >> 8) & 0xFF] to the register 0x300B
    and then [v & 0xFF] to the register 0x300C, whatever the bus answers; for
    [v = 0x0100] the bytes written are 0x01 and 0x00. *)
Theorem set_ctrl_exposure_two_writes :
  forall hw m v,
    streaming (priv m) = true ->
    let run := imx377_set_ctrl hw {| id := V4L2_CID_EXPOSURE; val := v |} m in
    let high := Z.land (Z.shiftr v 8) 0xFF in
    let low := Z.land v 0xFF in
    exists s1 s2,
      history (after run) =
        history m ++ [Returned (i2c_master_send [0x30; 0x0B; high] 3) s1;
                      Returned (i2c_master_send [0x30; 0x0C; low] 3) s2] /\
      reg_writes [Returned (i2c_master_send [0x30; 0x0B; high] 3) s1;
                  Returned (i2c_master_send [0x30; 0x0C; low] 3) s2] =
        [(0x300B, high); (0x300C, low)] /\
      priv (after run) = priv m /\
      (v = 0x0100 -> high = 0x01 /\ low = 0x00).
Proof.
  intros hw m v Hs run high low. subst run.
  rewrite (set_ctrl_exposure_run hw m v Hs). cbv zeta.
  unfold after. cbn [snd priv history].
  eexists _, _. split; [reflexivity|].
  split; [reflexivity|]. split; [reflexivity|].
  intros ->. split; reflexivity.
Qed.

(** C7, as the code has it.  On a device that is not streaming,
    [imx377_set_ctrl] returns 0 and leaves the machine exactly as it was: no
    call is made, so no register is written, and nothing of the driver's
    record changes. *)
Theorem set_ctrl_deferred_is_noop :
  forall hw m ctrl,
    streaming (priv m) = false ->
    let run := imx377_set_ctrl hw ctrl m in
    result run = 0 /\ after run = m /\
    reg_writes (history (after run)) = reg_writes (history m).
Proof.
  intros hw m ctrl Hs run. subst run.
  unfold imx377_set_ctrl, bind, get_priv, ret, result, after.
  rewrite Hs. cbn [negb fst snd]. repeat split.
Qed.

(** ** Gain encoding *)

Lemma gain_split_join v :
  0 <= v < 2048 ->
  decode_gain (Z.land (Z.shiftr v 8) 0x07) (Z.land v 0xFF) = v.
Proof.
  intros Hv. unfold decode_gain. apply Z.bits_inj'. intros n Hn.
  rewrite Z.lor_spec, !Z.land_spec.
  change 0xFF with (Z.ones 8). change 0x07 with (Z.ones 3).
  destruct (Z.ltb_spec n 8) as [Hlo|Hhi].
  - rewrite Z.shiftl_spec_low by lia.
    rewrite Z.ones_spec_low by lia.
    now rewrite andb_true_r.
  - rewrite Z.shiftl_spec by lia.
    rewrite Z.land_spec, Z.shiftr_spec by lia.
    rewrite (Z.ones_spec_high 8 n) by lia.
    replace (n - 8 + 8) with n by lia.
    rewrite andb_false_r, orb_false_r.
    destruct (Z.ltb_spec n 11) as [Hmid|Htop].
    + rewrite Z.ones_spec_low by lia. now rewrite andb_true_r.
    + rewrite Z.ones_spec_high by lia. rewrite andb_false_r.
      symmetry. apply Z.testbit_false; [lia|].
      rewrite Z.div_small; [reflexivity|].
      split; [lia|]. apply Z.lt_le_trans with (2 ^ 11); [simpl; lia|].
      apply Z.pow_le_mono_r; lia.
Qed.

(** C8.  For a gain [v] from 0 to 0x7A5, the two bytes a streaming device
    is sent, [(v >> 8) & 0x07] for the register 0x3009 and [v & 0xFF] for the
    register 0x300A, read back as [high << 8 | low] give [v] again. *)
Theorem gain_round_trip :
  forall hw m v,
    0 <= v <= 0x7A5 ->
    streaming (priv m) = true ->
    let run := imx377_set_ctrl hw {| id := V4L2_CID_ANALOGUE_GAIN; val := v |} m in
    let high := Z.land (Z.shiftr v 8) 0x07 in
    let low := Z.land v 0xFF in
    exists s1 s2,
      history (after run) =
        history m ++ [Returned (i2c_master_send [0x30; 0x09; high] 3) s1;
                      Returned (i2c_master_send [0x30; 0x0A; low] 3) s2] /\
      decode_gain high low = v.
Proof.
  intros hw m v Hv Hs run high low. subst run.
  rewrite (set_ctrl_gain_run hw m v Hs). cbv zeta.
  unfold after. cbn [snd priv history].
  eexists _, _. split; [reflexivity|].
  apply gain_split_join. lia.
Qed.

(** C10.  On a streaming device, a control whose id is neither the exposure
    nor the analogue gain falls through the switch: [imx377_set_ctrl]
    returns 0, makes no call and leaves the machine as it was. *)
Theorem set_ctrl_unknown_id_accepted :
  forall hw m ctrl,
    streaming (priv m) = true ->
    id ctrl <> V4L2_CID_EXPOSURE ->
    id ctrl <> V4L2_CID_ANALOGUE_GAIN ->
    let run := imx377_set_ctrl hw ctrl m in
    result run = 0 /\ after run = m /\
    reg_writes (history (after run)) = reg_writes (history m).
Proof.
  intros hw m ctrl Hs He Hg run. subst run.
  unfold imx377_set_ctrl, bind, get_priv, ret, result, after.
  rewrite Hs. cbn [negb].
  apply Z.eqb_neq in He, Hg. rewrite He, Hg. cbn [fst snd]. repeat split.
Qed.

(** ** The concrete board *)

Example live_is_streaming :
  streaming (priv live) = true /\ all_on (history live) /\
  reg_writes (history live) = [(0x3000, 0x00); (0x0100, 0x01)].
Proof.
  split; [reflexivity|]. split; [|reflexivity].
  intros [[ | | ]|[]]; reflexivity.
Qed.

(** Each of the four enable steps can be the one that fails. *)
Example power_on_fails_at_each_step :
  forall k x, nth_error power_steps k = Some x ->
    let hw := fun (_ : list event) (c : call) =>
                match c with
                | regulator_enable _ | clk_prepare_enable _ =>
                    if match c, x with
                       | regulator_enable r, Rail r' => resource_eqb (Rail r) (Rail r')
                       | clk_prepare_enable _, Clock _ => true
                       | _, _ => false
                       end
                    then - EIO else 0
                | _ => 0
                end in
    imx377_power_on hw idle =
      (- EIO, {| priv := board; history := failed_power_on_calls k (- EIO) |}).
Proof.
  intros k x Hk.
  destruct k as [|[|[|[|k]]]]; cbn in Hk; inversion Hk; subst; try reflexivity.
  destruct k; discriminate.
Qed.

(** C5 fails on the code.  With the device streaming, the exposure set to
    0x0100, the first write answered with [-EAGAIN] and the second with
    [-ENXIO], both writes are made and [imx377_set_ctrl] returns -1, the
    bitwise or of the two codes, which is neither the first error nor any
    error the bus reported. *)
Theorem set_ctrl_mixes_error_codes :
  let run := imx377_set_ctrl hw_both_fail
               {| id := V4L2_CID_EXPOSURE; val := 0x0100 |} live in
  history (after run) =
    history live ++
    [Returned (i2c_master_send [0x30; 0x0B; 0x01] 3) (- EAGAIN);
     Returned (i2c_master_send [0x30; 0x0C; 0x00] 3) (- ENXIO)] /\
  result run = -1 /\
  result run <> - EAGAIN /\ result run <> - ENXIO.
Proof.
  cbv zeta. split; [reflexivity|]. split; [reflexivity|].
  split; vm_compute; discriminate.
Qed.

(** C4 fails on the code: a second [imx377_power_off] right after a first
    one makes the four disable calls again, each on a resource that the first
    call has already switched off. *)
Lemma power_off_twice_disables_again :
  let again := after (imx377_power_off torn_down) in
  all_off (history torn_down) /\
  history again =
    history torn_down ++
    [Done (gpiod_set_value_cansleep reset_line 0);
     Done (gpiod_set_value_cansleep pwdn_line 1);
     Done (clk_disable_unprepare xclk);
     Done (regulator_disable dovdd);
     Done (regulator_disable avdd);
     Done (regulator_disable dvdd)] /\
  idle_disables (history torn_down)
    (skipn (length (history torn_down)) (history again)) =
    [Clock xclk; Rail dovdd; Rail avdd; Rail dvdd] /\
  idle_disables (history torn_down)
    (skipn (length (history torn_down)) (history again)) <> [].
Proof.
  cbv zeta. split; [intros [[ | | ]|[]]; reflexivity|].
  split; [reflexivity|]. split; [reflexivity|].
  vm_compute. discriminate.
Qed.

(** C7 fails on the code: setting the gain to 500 and setting it to 700 on
    the idle board leave the very same driver record, the one the board had
    before, so the record holds no trace of the value. *)
Lemma set_ctrl_deferred_records_nothing :
  let gain v := {| id := V4L2_CID_ANALOGUE_GAIN; val := v |} in
  let a := priv (after (imx377_set_ctrl hw_ok (gain 500) idle)) in
  let b := priv (after (imx377_set_ctrl hw_ok (gain 700) idle)) in
  a = board /\ b = board /\
  ~ (exists stored_gain : imx377 -> Z, stored_gain a = 500 /\ stored_gain b = 700).
Proof.
  cbv zeta. split; [reflexivity|]. split; [reflexivity|].
  intros [stored [H500 H700]].
  change (priv (after (imx377_set_ctrl hw_ok
            {| id := V4L2_CID_ANALOGUE_GAIN; val := 500 |} idle))) with board in H500.
  change (priv (after (imx377_set_ctrl hw_ok
            {| id := V4L2_CID_ANALOGUE_GAIN; val := 700 |} idle))) with board in H700.
  rewrite H500 in H700. discriminate.
Qed.

(** ** The theorems at work on the concrete board *)


Lemma set_ctrl_exposure_two_writes_witness :
  exists s1 s2,
    history (after (imx377_set_ctrl hw_ok
                      {| id := V4L2_CID_EXPOSURE; val := 0x0100 |} live)) =
      history live ++ [Returned (i2c_master_send [0x30; 0x0B; 0x01] 3) s1;
                       Returned (i2c_master_send [0x30; 0x0C; 0x00] 3) s2].
Proof.
  destruct (set_ctrl_exposure_two_writes hw_ok live 0x0100)
    as (s1 & s2 & Hh & Hw & Hp & Hv).
  - reflexivity.
  - exists s1, s2. exact Hh.
Defined.

Lemma set_ctrl_deferred_is_noop_witness :
  result (imx377_set_ctrl hw_ok
            {| id := V4L2_CID_ANALOGUE_GAIN; val := 500 |} idle) = 0 /\
  after (imx377_set_ctrl hw_ok
           {| id := V4L2_CID_ANALOGUE_GAIN; val := 500 |} idle) = idle.
Proof.
  destruct (set_ctrl_deferred_is_noop hw_ok idle
              {| id := V4L2_CID_ANALOGUE_GAIN; val := 500 |})
    as (Hr & Ha & Hw).
  - reflexivity.
  - split; [exact Hr | exact Ha].
Defined.

Lemma gain_round_trip_witness :
  decode_gain (Z.land (Z.shiftr 0x7A5 8) 0x07) (Z.land 0x7A5 0xFF) = 0x7A5.
Proof.
  destruct (gain_round_trip hw_ok live 0x7A5) as (s1 & s2 & Hh & Hd).
  - lia.
  - reflexivity.
  - exact Hd.
Defined.

Lemma write_reg_one_transaction_witness :
  result (imx377_write_reg hw_ok IMX377_REG_MODE_SELECT 0x01 idle) = 0 /\
  result (imx377_write_reg hw_short IMX377_REG_MODE_SELECT 0x01 idle) = - EIO /\
  result (imx377_write_reg hw_mode_select_nack IMX377_REG_MODE_SELECT 0x01 idle)
    = - ENXIO /\
  history (after (imx377_write_reg hw_ok IMX377_REG_MODE_SELECT 0x01 idle)) =
    [Returned (i2c_master_send [0x01; 0x00; 0x01] 3) 3].
Proof.
  assert (Hreg : 0 <= IMX377_REG_MODE_SELECT < 65536)
    by (unfold IMX377_REG_MODE_SELECT; lia).
  assert (Hv : 0 <= 0x01 < 256) by lia.
  destruct (write_reg_one_transaction hw_ok idle _ _ Hreg Hv)
    as (Hh & _ & Hok & _ & _).
  destruct (write_reg_one_transaction hw_short idle _ _ Hreg Hv)
    as (_ & _ & _ & Hshort & _).
  destruct (write_reg_one_transaction hw_mode_select_nack idle _ _ Hreg Hv)
    as (_ & _ & _ & _ & Hbus).
  split; [apply Hok; reflexivity|].
  split; [apply Hshort; change (0 <= 1 < 3); lia|].
  split; [apply Hbus; reflexivity|].
  exact Hh.
Defined.

Lemma set_ctrl_unknown_id_accepted_witness :
  result (imx377_set_ctrl hw_ok {| id := V4L2_CID_HFLIP; val := 1 |} live) = 0 /\
  after (imx377_set_ctrl hw_ok {| id := V4L2_CID_HFLIP; val := 1 |} live) = live.
Proof.
  destruct (set_ctrl_unknown_id_accepted hw_ok live
              {| id := V4L2_CID_HFLIP; val := 1 |}) as (Hr & Ha & Hw).
  - reflexivity.
  - vm_compute. discriminate.
  - vm_compute. discriminate.
  - split; [exact Hr | exact Ha].
Defined.

(** * Further properties of the driver *)

(** ** Register transport, continued *)

Lemma write_status_sign moved :
  write_status moved <= 0 /\ (write_status moved = 0 <-> moved = 3).
Proof.
  unfold write_status, EIO.
  destruct (Z.eqb_spec moved 3); [lia|].
  destruct (Z.ltb_spec moved 0); lia.
Qed.

(** X1.  A register read is one transfer of two messages, the two address
    bytes and the read of one byte.  It succeeds exactly when the bus reports
    both messages done, yields [-EIO] for any other count that is not
    negative, a single message done included, and hands back the bus's own
    code when that is negative. *)
Theorem read_reg_one_transfer :
  forall hw m reg, 0 <= reg < 65536 ->
    let sent := i2c_transfer_read [Z.shiftr reg 8; Z.land reg 0xff] 1 in
    let done := hw (history m) sent in
    let run := imx377_read_reg hw reg m in
    history (after run) = history m ++ [Returned sent done] /\
    priv (after run) = priv m /\
    (result run = 0 <-> done = 2) /\
    (0 <= done -> done <> 2 -> result run = - EIO) /\
    (done < 0 -> result run = done).
Proof.
  intros hw m reg Hreg sent done run. subst run.
  unfold imx377_read_reg, bind, ret, invoke, result, after.
  rewrite (u16_small reg Hreg), (u8_small _ (shiftr8_range reg Hreg)),
    (u8_small _ (land_ff_range reg)).
  cbn [fst snd priv history]. fold sent. fold done.
  split; [reflexivity|]. split; [reflexivity|].
  unfold EIO.
  destruct (Z.eqb_spec done 2); destruct (Z.ltb_spec done 0);
    repeat split; intros; lia.
Qed.

Lemma read_reg_one_transfer_witness :
  result (imx377_read_reg hw_ok IMX377_REG_MODE_SELECT idle) = 0 /\
  result (imx377_read_reg hw_short IMX377_REG_MODE_SELECT idle) = - EIO.
Proof.
  assert (Hreg : 0 <= IMX377_REG_MODE_SELECT < 65536)
    by (unfold IMX377_REG_MODE_SELECT; lia).
  destruct (read_reg_one_transfer hw_ok idle _ Hreg) as (_ & _ & Hok & _ & _).
  destruct (read_reg_one_transfer hw_short idle _ Hreg) as (_ & _ & _ & Hs & _).
  split; [apply Hok; reflexivity|].
  apply Hs; [change (0 <= 1); lia | change (1 <> 2); lia].
Defined.

(** X2.  Whatever its arguments and whatever the bus reports, a register
    write sends three bytes that each fit in 8 bits, and its status is never
    positive: 0 when 3 bytes were reported, negative otherwise; a reported
    count above 3 is turned into [-EIO] as a short count is. *)
Theorem write_reg_status_never_positive :
  forall hw m reg v,
    let run := imx377_write_reg hw reg v m in
    exists b0 b1 b2 moved,
      history (after run) =
        history m ++ [Returned (i2c_master_send [b0; b1; b2] 3) moved] /\
      moved = hw (history m) (i2c_master_send [b0; b1; b2] 3) /\
      (0 <= b0 < 256 /\ 0 <= b1 < 256 /\ 0 <= b2 < 256) /\
      result run <= 0 /\
      (result run = 0 <-> moved = 3) /\
      (3 < moved -> result run = - EIO).
Proof.
  intros hw m reg v run. subst run.
  unfold imx377_write_reg, bind, ret, invoke, result, after.
  cbn [fst snd priv history].
  eexists _, _, _, _. split; [reflexivity|]. split; [reflexivity|].
  split; [repeat split; apply u8_range|].
  match goal with |- context [hw ?h ?c] => generalize (hw h c) end.
  intros moved. pose proof (write_status_sign moved) as [Hle Hiff].
  unfold write_status in *.
  split; [exact Hle|]. split; [exact Hiff|].
  intros H. destruct (Z.eqb_spec moved 3); [lia|].
  destruct (Z.ltb_spec moved 0); [lia | reflexivity].
Qed.

Lemma write_reg_status_never_positive_witness :
  result (imx377_write_reg (fun _ _ => 7) 0x1300B 0x1FF idle) = - EIO /\
  history (after (imx377_write_reg (fun _ _ => 7) 0x1300B 0x1FF idle)) =
    [Returned (i2c_master_send [0x30; 0x0B; 0xFF] 3) 7].
Proof.
  destruct (write_reg_status_never_positive (fun _ _ => 7) idle 0x1300B 0x1FF)
    as (b0 & b1 & b2 & moved & Hh & Hm & Hb & Hle & Hiff & Hbig).
  split; [apply Hbig; rewrite Hm; lia | reflexivity].
Defined.

(** ** Power sequencing, continued *)

Lemma power_on_cases hw m :
  (result (imx377_power_on hw m) = 0 /\
   after (imx377_power_on hw m) =
     {| priv := priv m; history := history m ++ power_on_calls (priv m) |}) \/
  (exists k, (k < 4)%nat /\ result (imx377_power_on hw m) <> 0 /\
   after (imx377_power_on hw m) =
     {| priv := priv m;
        history := history m ++
                   failed_power_on_calls k (result (imx377_power_on hw m)) |}).
Proof.
  destruct (Z.eq_dec (result (imx377_power_on hw m)) 0) as [E|N].
  { left. split; [exact E | now apply power_on_success]. }
  right. revert N.
  unfold imx377_power_on, bind, ret, get_priv, result, after.
  cbn [invoke perform priv history fst snd].
  remember (hw (history m) (regulator_enable dvdd)) as r1 eqn:R1.
  destruct (Z.eqb_spec r1 0) as [E1|N1]; cbn [negb fst snd priv history].
  2:{ intros _. exists 0%nat. split; [lia|]. split; [exact N1|]. reflexivity. }
  rewrite E1 in *. clear E1.
  remember (hw (history m ++ [Returned (regulator_enable dvdd) 0])
               (regulator_enable avdd)) as r2 eqn:R2.
  destruct (Z.eqb_spec r2 0) as [E2|N2]; cbn [negb fst snd priv history].
  2:{ intros _. exists 1%nat. split; [lia|]. split; [exact N2|].
      rewrite <- !app_assoc. reflexivity. }
  rewrite E2 in *. clear E2.
  match goal with |- context [hw ?h (regulator_enable dovdd)] =>
    remember (hw h (regulator_enable dovdd)) as r3 eqn:R3 end.
  destruct (Z.eqb_spec r3 0) as [E3|N3]; cbn [negb fst snd priv history].
  2:{ intros _. exists 2%nat. split; [lia|]. split; [exact N3|].
      rewrite <- !app_assoc. reflexivity. }
  rewrite E3 in *. clear E3.
  match goal with |- context [hw ?h (clk_prepare_enable xclk)] =>
    remember (hw h (clk_prepare_enable xclk)) as r4 eqn:R4 end.
  destruct (Z.eqb_spec r4 0) as [E4|N4]; cbn [negb fst snd priv history].
  2:{ intros _. exists 3%nat. split; [lia|]. split; [exact N4|].
      rewrite <- !app_assoc. reflexivity. }
  destruct (reset_gpio (priv m)), (pwdn_gpio (priv m));
    cbn [perform fst snd priv history]; intros H; now elim H.
Qed.

Lemma power_on_calls_on h p x : enabled (h ++ power_on_calls p) x = true.
Proof.
  rewrite enabled_app. unfold power_on_calls.
  rewrite !fold_left_app, !line_calls_track.
  destruct x as [[ | | ]|[]]; cbn; reflexivity.
Qed.

Lemma net_enables_app x es1 es2 :
  net_enables x (es1 ++ es2) = net_enables x es1 + net_enables x es2.
Proof.
  induction es1 as [|e es1 IH]; cbn [net_enables app]; [reflexivity|].
  rewrite IH. lia.
Qed.

Lemma net_enables_lines x g v : net_enables x (line_calls g v) = 0.
Proof. destruct g; reflexivity. Qed.

Lemma net_enables_power_on_calls x p : net_enables x (power_on_calls p) = 1.
Proof.
  unfold power_on_calls. rewrite !net_enables_app, !net_enables_lines.
  destruct x as [[ | | ]|[]]; reflexivity.
Qed.

Lemma net_enables_power_off_calls x p : net_enables x (power_off_calls p) = -1.
Proof.
  unfold power_off_calls. rewrite !net_enables_app, !net_enables_lines.
  destruct x as [[ | | ]|[]]; reflexivity.
Qed.

Lemma net_enables_failed_power_on x k r :
  r <> 0 -> (k < 4)%nat -> net_enables x (failed_power_on_calls k r) = 0.
Proof.
  intros Hr Hk. apply Z.eqb_neq in Hr.
  destruct k as [|[|[|[|k]]]]; [ | | | | lia];
    destruct x as [[ | | ]|[]];
    cbn [failed_power_on_calls power_steps firstn skipn map rev app
         net_enables effect_of enable_call disable_call];
    rewrite ?Hr; reflexivity.
Qed.

(** X3.  [imx377_power_on] succeeds as soon as the platform answers 0 to
    every enable call, and a successful [imx377_power_on] has made exactly
    these calls, in this order: the enables of dvdd, avdd, dovdd and the
    clock, reset driven to 1 and power-down to 0 where the lines exist, and
    the sleep of 5 to 10 ms.  All four resources are on afterwards and the
    driver's record is untouched. *)
Theorem power_on_success_sequence :
  forall hw m,
    let run := imx377_power_on hw m in
    ((forall h x, hw h (enable_call x) = 0) -> result run = 0) /\
    (result run = 0 ->
       history (after run) =
         history m
         ++ [Returned (regulator_enable dvdd) 0;
             Returned (regulator_enable avdd) 0;
             Returned (regulator_enable dovdd) 0;
             Returned (clk_prepare_enable xclk) 0]
         ++ line_calls (reset_gpio (priv m)) 1
         ++ line_calls (pwdn_gpio (priv m)) 0
         ++ [Done (usleep_range 5000 10000)] /\
       priv (after run) = priv m /\
       all_on (history (after run))).
Proof.
  intros hw m run. subst run. split.
  - intros Hok.
    destruct (power_on_cases hw m) as [[E _]|(k & Hk & N & Ha)]; [exact E|].
    exfalso. revert N.
    unfold imx377_power_on, bind, ret, get_priv, result.
    cbn [invoke perform priv history fst snd].
    rewrite (Hok _ (Rail dvdd)). cbn [Z.eqb negb].
    rewrite (Hok _ (Rail avdd)). cbn [Z.eqb negb].
    rewrite (Hok _ (Rail dovdd)). cbn [Z.eqb negb].
    rewrite (Hok _ (Clock xclk)). cbn [Z.eqb negb priv history].
    destruct (reset_gpio (priv m)), (pwdn_gpio (priv m));
      cbn [perform fst snd priv history]; intros H; now apply H.
  - intros E. rewrite (power_on_success hw m E). cbn [priv history].
    split; [reflexivity|]. split; [reflexivity|].
    intros x. apply power_on_calls_on.
Qed.

Lemma power_on_success_sequence_witness :
  result (imx377_power_on hw_ok idle) = 0 /\
  all_on (history (after (imx377_power_on hw_ok idle))).
Proof.
  destruct (power_on_success_sequence hw_ok idle) as [Hok Hseq].
  assert (E : result (imx377_power_on hw_ok idle) = 0).
  { apply Hok. intros h [r|c]; reflexivity. }
  split; [exact E|]. apply (Hseq E).
Defined.

(** X4.  A run of [imx377_power_on] is balanced: a run that returns 0 has
    successfully enabled every resource once more than it has disabled it,
    and a run that fails has disabled every resource exactly as often as it
    had successfully enabled it. *)
Theorem power_on_net_enables :
  forall hw m,
    let run := imx377_power_on hw m in
    exists es,
      history (after run) = history m ++ es /\
      forall x, net_enables x es = if result run =? 0 then 1 else 0.
Proof.
  intros hw m run. subst run.
  destruct (power_on_cases hw m) as [[E Ha]|(k & Hk & N & Ha)].
  - exists (power_on_calls (priv m)). rewrite Ha, E. cbn [history Z.eqb].
    split; [reflexivity|]. intros x. apply net_enables_power_on_calls.
  - eexists. rewrite Ha. cbn [history]. split; [reflexivity|].
    intros x. apply Z.eqb_neq in N as N'. rewrite N'.
    now apply net_enables_failed_power_on.
Qed.

(** ** Streaming, continued *)

(** The four ways a run of [imx377_start_streaming] can go. *)
Lemma start_streaming_cases hw m :
  let h0 := history m ++ power_on_calls (priv m) in
  let s1 := hw h0 standby_send in
  let h1 := h0 ++ [Returned standby_send s1] in
  let s2 := hw h1 stream_on_send in
  (result (imx377_power_on hw m) <> 0 /\
   imx377_start_streaming hw m = imx377_power_on hw m) \/
  (result (imx377_power_on hw m) = 0 /\ write_status s1 <> 0 /\
   imx377_start_streaming hw m =
     (write_status s1,
      {| priv := priv m; history := h1 ++ power_off_calls (priv m) |})) \/
  (result (imx377_power_on hw m) = 0 /\ write_status s1 = 0 /\
   write_status s2 <> 0 /\
   imx377_start_streaming hw m =
     (write_status s2,
      {| priv := priv m;
         history := (h1 ++ [Returned stream_on_send s2])
                    ++ power_off_calls (priv m) |})) \/
  (result (imx377_power_on hw m) = 0 /\ s1 = 3 /\ s2 = 3 /\
   imx377_start_streaming hw m =
     (0, {| priv := set_streaming true (priv m);
            history := h1 ++ [Returned stream_on_send s2] |})).
Proof.
  intros h0 s1 h1 s2.
  destruct (Z.eq_dec (result (imx377_power_on hw m)) 0) as [Hon|Hon].
  2:{ left. split; [exact Hon|].
      unfold imx377_start_streaming, bind, result in *.
      destruct (imx377_power_on hw m) as [r0 m0]. cbn [fst] in Hon.
      apply Z.eqb_neq in Hon. rewrite Hon. reflexivity. }
  right. pose proof (power_on_success hw m Hon) as Hafter.
  unfold imx377_start_streaming, bind, result, after in *.
  destruct (imx377_power_on hw m) as [r0 m0].
  cbn [fst snd] in Hon, Hafter. subst r0 m0. cbn [Z.eqb negb].
  rewrite write_reg_const by (unfold IMX377_STANDBY; lia).
  cbn [priv history]. fold h0. fold standby_send. fold s1.
  destruct (Z.eqb_spec (write_status s1) 0) as [E1|N1]; cbn [negb].
  - right.
    rewrite write_reg_const by (unfold IMX377_REG_MODE_SELECT; lia).
    cbn [priv history]. fold h1. fold stream_on_send. fold s2.
    destruct (Z.eqb_spec (write_status s2) 0) as [E2|N2]; cbn [negb].
    + right. split; [reflexivity|].
      split; [now apply write_status_sign|].
      split; [now apply write_status_sign|]. reflexivity.
    + left. rewrite power_off_run. cbn [priv history].
      repeat (split; trivial).
  - left. rewrite power_off_run. cbn [priv history].
    repeat (split; trivial).
Qed.

Lemma stop_streaming_run hw m :
  imx377_stop_streaming hw m =
    let s := hw (history m) stream_off_send in
    (write_status s,
     {| priv := set_streaming false (priv m);
        history := (history m ++ [Returned stream_off_send s])
                   ++ power_off_calls (priv m) |}).
Proof.
  unfold imx377_stop_streaming, bind.
  rewrite write_reg_const by (unfold IMX377_REG_MODE_SELECT; lia).
  unfold put_streaming, ret. cbn [priv history].
  rewrite power_off_run. reflexivity.
Qed.

(** C2, as the code has it.  When [imx377_power_on] succeeded and the bus
    does not report the standby write complete, or reports it complete but
    not the mode-select write, [imx377_start_streaming] runs
    [imx377_power_off] from the machine the failed write left and returns the
    status of that write, which is not 0; every power resource is off
    afterwards.  The failure path does not touch the driver's record: the
    streaming flag is what it was before the call, hence false when the
    device was not streaming. *)
Theorem start_streaming_write_failure_powers_off :
  forall hw m,
    let run := imx377_start_streaming hw m in
    let h0 := history m ++ power_on_calls (priv m) in
    let s1 := hw h0 standby_send in
    let h1 := h0 ++ [Returned standby_send s1] in
    let s2 := hw h1 stream_on_send in
    let failed := if s1 =? 3 then h1 ++ [Returned stream_on_send s2] else h1 in
    let status := if s1 =? 3 then write_status s2 else write_status s1 in
    result (imx377_power_on hw m) = 0 ->
    s1 <> 3 \/ s2 <> 3 ->
    result run = status /\
    status <> 0 /\
    after run =
      after (imx377_power_off {| priv := priv m; history := failed |}) /\
    history (after run) = failed ++ power_off_calls (priv m) /\
    all_off (history (after run)) /\
    priv (after run) = priv m /\
    (streaming (priv m) = false -> streaming (priv (after run)) = false).
Proof.
  intros hw m. cbv zeta. intros Hon Hfail.
  pose proof (start_streaming_cases hw m) as Hc. cbv zeta in Hc.
  set (h0 := history m ++ power_on_calls (priv m)) in *.
  set (s1 := hw h0 standby_send) in *.
  set (h1 := h0 ++ [Returned standby_send s1]) in *.
  set (s2 := hw h1 stream_on_send) in *.
  destruct Hc as [[N _]|[(_ & N1 & H)|[(_ & E1 & N2 & H)|(_ & E1 & E2 & _)]]];
    [contradiction | | | ].
  - assert (Hs1 : (s1 =? 3) = false).
    { apply Z.eqb_neq. intros E. apply N1. now apply write_status_sign. }
    rewrite Hs1, H, power_off_run.
    unfold result, after. cbn [fst snd priv history].
    repeat (split; trivial).
    intros x. apply power_off_calls_off.
  - assert (Hs1 : (s1 =? 3) = true).
    { apply Z.eqb_eq. now apply write_status_sign. }
    rewrite Hs1, H, power_off_run.
    unfold result, after. cbn [fst snd priv history].
    repeat (split; trivial).
    intros x. apply power_off_calls_off.
  - exfalso. destruct Hfail; contradiction.
Qed.

Lemma start_streaming_write_failure_powers_off_witness :
  result (imx377_start_streaming hw_mode_select_nack idle) = - ENXIO /\
  streaming (priv (after (imx377_start_streaming hw_mode_select_nack idle)))
    = false /\
  all_off (history (after (imx377_start_streaming hw_mode_select_nack idle))) /\
  result (imx377_start_streaming hw_standby_nack idle) = - ENXIO /\
  all_off (history (after (imx377_start_streaming hw_standby_nack idle))).
Proof.
  destruct (start_streaming_write_failure_powers_off hw_mode_select_nack idle)
    as (Hr & Hn & Ha & Hh & Hoff & Hp & Hs).
  { reflexivity. }
  { right. vm_compute. discriminate. }
  destruct (start_streaming_write_failure_powers_off hw_standby_nack idle)
    as (Hr' & Hn' & Ha' & Hh' & Hoff' & Hp' & Hs').
  { reflexivity. }
  { left. vm_compute. discriminate. }
  split; [exact Hr|]. split; [apply Hs; reflexivity|].
  split; [exact Hoff|]. split; [exact Hr' | exact Hoff'].
Defined.

(** C2 fails on the code as stated: restarting the board that is already
    streaming, with the mode-select write not acknowledged, powers up, fails
    at that write and powers down, yet the streaming flag is still set when
    the call returns. *)
Lemma start_streaming_failure_leaves_flag_set :
  let run := imx377_start_streaming hw_mode_select_nack live in
  result (imx377_power_on hw_mode_select_nack live) = 0 /\
  result run = - ENXIO /\
  result run <> 0 /\
  streaming (priv (after run)) = true /\
  streaming (priv (after run)) <> false.
Proof.
  cbv zeta. split; [reflexivity|]. split; [reflexivity|].
  split; [vm_compute; discriminate|]. split; [reflexivity|].
  vm_compute. discriminate.
Qed.

(** X5.  When [imx377_power_on] fails, [imx377_start_streaming] does
    nothing more than it: the two runs return the same status and leave the
    same machine, with no register write, no second teardown and the
    streaming flag as it was. *)
Theorem start_streaming_stops_at_power_failure :
  forall hw m,
    result (imx377_power_on hw m) <> 0 ->
    imx377_start_streaming hw m = imx377_power_on hw m.
Proof.
  intros hw m Hon.
  destruct (start_streaming_cases hw m)
    as [[_ H]|[(E & _)|[(E & _)|(E & _)]]]; [exact H | | | ]; contradiction.
Qed.

Lemma start_streaming_stops_at_power_failure_witness :
  imx377_start_streaming hw_clk_fails idle = imx377_power_on hw_clk_fails idle.
Proof.
  apply (start_streaming_stops_at_power_failure hw_clk_fails idle).
  vm_compute. discriminate.
Defined.

(** X6.  When the standby write fails, the mode-select register is never
    written: after the calls of the power-up, the run makes that one send and
    then the calls of the power-down, and returns the status of the standby
    write. *)
Theorem start_streaming_standby_failure_skips_mode_select :
  forall hw m,
    let run := imx377_start_streaming hw m in
    let moved := hw (history m ++ power_on_calls (priv m)) standby_send in
    result (imx377_power_on hw m) = 0 ->
    moved <> 3 ->
    history (after run) =
      history m ++ power_on_calls (priv m)
      ++ [Returned (i2c_master_send [0x30; 0x00; 0x00] 3) moved]
      ++ power_off_calls (priv m) /\
    result run = write_status moved /\
    result run <> 0 /\
    priv (after run) = priv m.
Proof.
  intros hw m run moved Hon Hmoved. subst run.
  assert (Hs : write_status moved <> 0).
  { intros H. apply write_status_sign in H. contradiction. }
  destruct (start_streaming_cases hw m)
    as [[N _]|[(_ & _ & H)|[(_ & E & _)|(_ & E & _)]]];
    [contradiction | | fold moved in E; contradiction
     | fold moved in E; contradiction].
  fold moved in H. rewrite H. unfold result, after. cbn [fst snd priv history].
  rewrite <- !app_assoc. repeat (split; trivial).
Qed.

Lemma start_streaming_standby_failure_skips_mode_select_witness :
  reg_writes (history (after (imx377_start_streaming hw_standby_nack idle))) =
    [(0x3000, 0x00)] /\
  result (imx377_start_streaming hw_standby_nack idle) = - ENXIO.
Proof.
  destruct (start_streaming_standby_failure_skips_mode_select
              hw_standby_nack idle) as (Hh & Hr & Hn & Hp).
  - reflexivity.
  - vm_compute. discriminate.
  - rewrite Hh, Hr. split; reflexivity.
Defined.

(** X7.  A run of [imx377_start_streaming] that returns 0 has made the
    calls of the power-up, then written 0x00 to the standby register and 0x01
    to the mode-select register, in that order and both fully sent, and
    nothing else; the streaming flag is set, the rest of the record is as it
    was, and all four resources are on. *)
Theorem start_streaming_success_sequence :
  forall hw m,
    let run := imx377_start_streaming hw m in
    result run = 0 ->
    history (after run) =
      history m ++ power_on_calls (priv m)
      ++ [Returned (i2c_master_send [0x30; 0x00; 0x00] 3) 3;
          Returned (i2c_master_send [0x01; 0x00; 0x01] 3) 3] /\
    priv (after run) = set_streaming true (priv m) /\
    all_on (history (after run)).
Proof.
  intros hw m run Hrun. subst run.
  destruct (start_streaming_cases hw m)
    as [[N H]|[(_ & N & H)|[(_ & _ & N & H)|(_ & E1 & E2 & H)]]].
  - rewrite H in Hrun. contradiction.
  - rewrite H in Hrun. contradiction.
  - rewrite H in Hrun. contradiction.
  - rewrite H. unfold result, after. cbn [fst snd priv history].
    cbv zeta in E1, E2. rewrite E1 in E2 |- *. rewrite E2. rewrite <- !app_assoc.
    split; [reflexivity|]. split; [reflexivity|].
    intros x. rewrite !app_assoc, enabled_app. cbn [fold_left].
    rewrite <- !app_assoc.
    rewrite (app_assoc (history m)), enabled_app, power_on_calls_on.
    reflexivity.
Qed.

Lemma start_streaming_success_sequence_witness :
  priv (after (imx377_start_streaming hw_ok idle)) = set_streaming true board /\
  all_on (history (after (imx377_start_streaming hw_ok idle))).
Proof.
  destruct (start_streaming_success_sequence hw_ok idle) as (Hh & Hp & Hon).
  - reflexivity.
  - split; [exact Hp | exact Hon].
Defined.

(** X8.  [imx377_start_streaming] never clears the streaming flag: a run
    that fails leaves the driver's record exactly as it found it.  So when it
    is called on a device that is already streaming and a register write
    fails, the device ends with every power resource off and the flag still
    set. *)
Theorem start_streaming_failure_keeps_record :
  forall hw m,
    let run := imx377_start_streaming hw m in
    result run <> 0 ->
    priv (after run) = priv m /\
    (streaming (priv m) = true ->
     result (imx377_power_on hw m) = 0 ->
     streaming (priv (after run)) = true /\ all_off (history (after run))).
Proof.
  intros hw m run Hrun. subst run.
  destruct (start_streaming_cases hw m)
    as [[N H]|[(E & N & H)|[(E & _ & N & H)|(_ & _ & _ & H)]]];
    rewrite H in *; unfold result, after in *; cbn [fst snd priv history] in *.
  - split; [|intros _ E; contradiction].
    destruct (power_on_cases hw m) as [[E _]|(k & _ & _ & Ha)];
      [contradiction|].
    unfold after in Ha. now rewrite Ha.
  - split; [reflexivity|]. intros Hs _. split; [exact Hs|].
    intros x. apply power_off_calls_off.
  - split; [reflexivity|]. intros Hs _. split; [exact Hs|].
    intros x. apply power_off_calls_off.
  - now elim Hrun.
Qed.

Lemma start_streaming_failure_keeps_record_witness :
  streaming (priv (after (imx377_start_streaming hw_mode_select_nack live)))
    = true /\
  all_off (history (after (imx377_start_streaming hw_mode_select_nack live))).
Proof.
  destruct (start_streaming_failure_keeps_record hw_mode_select_nack live)
    as [Hp Hs].
  - vm_compute. discriminate.
  - apply Hs; reflexivity.
Defined.

(** X9.  A run of [imx377_start_streaming] is balanced whichever way it
    goes: when it returns 0 every resource has been successfully enabled once
    more than disabled, and when it fails, at the power-up or at either
    register write, every resource has been disabled exactly as often as it
    was successfully enabled. *)
Theorem start_streaming_net_enables :
  forall hw m,
    let run := imx377_start_streaming hw m in
    exists es,
      history (after run) = history m ++ es /\
      forall x, net_enables x es = if result run =? 0 then 1 else 0.
Proof.
  intros hw m run. subst run.
  destruct (start_streaming_cases hw m)
    as [[N H]|[(E & N & H)|[(E & _ & N & H)|(_ & _ & _ & H)]]];
    rewrite H; unfold result, after; cbn [fst snd priv history].
  - destruct (power_on_cases hw m) as [[E _]|(k & Hk & _ & Ha)];
      [contradiction|].
    unfold after in Ha. rewrite Ha. cbn [history].
    eexists. split; [reflexivity|]. intros x.
    apply Z.eqb_neq in N as N'. unfold result in N'. rewrite N'.
    now apply net_enables_failed_power_on.
  - apply Z.eqb_neq in N. rewrite N.
    eexists. split; [rewrite <- !app_assoc; reflexivity|]. intros x.
    rewrite !net_enables_app, net_enables_power_on_calls,
      net_enables_power_off_calls. reflexivity.
  - apply Z.eqb_neq in N. rewrite N.
    eexists. split; [rewrite <- !app_assoc; reflexivity|]. intros x.
    rewrite !net_enables_app, net_enables_power_on_calls,
      net_enables_power_off_calls. reflexivity.
  - eexists. split; [rewrite <- !app_assoc; reflexivity|]. intros x.
    rewrite !net_enables_app, net_enables_power_on_calls. reflexivity.
Qed.

Lemma idle_disables_stop h s p :
  idle_disables h ([Returned stream_off_send s] ++ power_off_calls p) =
  filter (fun x => negb (enabled h x)) (rev power_steps).
Proof.
  rewrite idle_disables_app. cbn [idle_disables effect_of stream_off_send app].
  rewrite idle_disables_power_off. apply filter_ext. intros x.
  rewrite enabled_app. reflexivity.
Qed.

(** X10.  Stopping after a successful start undoes it: over the two runs
    every resource is successfully enabled once and disabled once, no disable
    hits a resource that is off, all resources are off at the end, and the
    record is the one before the start with the streaming flag false. *)
Theorem start_then_stop_is_balanced :
  forall hw m,
    let started := imx377_start_streaming hw m in
    let stopped := imx377_stop_streaming hw (after started) in
    result started = 0 ->
    exists es1 es2,
      history (after started) = history m ++ es1 /\
      history (after stopped) = history (after started) ++ es2 /\
      (forall x, net_enables x (es1 ++ es2) = 0) /\
      idle_disables (history (after started)) es2 = [] /\
      all_off (history (after stopped)) /\
      priv (after stopped) = set_streaming false (priv m).
Proof.
  intros hw m started stopped Hok. subst stopped started.
  destruct (start_streaming_cases hw m)
    as [[N H]|[(_ & N & H)|[(_ & _ & N & H)|(_ & E1 & E2 & H)]]];
    try (rewrite H in Hok; contradiction).
  rewrite H, stop_streaming_run. cbv zeta.
  unfold after. cbn [snd priv history].
  eexists _, _. split; [rewrite <- !app_assoc; reflexivity|].
  split; [rewrite <- (app_assoc _ [_] (power_off_calls _)); reflexivity|].
  split; [|split; [|split]].
  - intros x. rewrite !net_enables_app, net_enables_power_on_calls,
      net_enables_power_off_calls. reflexivity.
  - fold stream_off_send. rewrite idle_disables_stop.
    cbn [power_steps rev app filter].
    rewrite !enabled_app. cbn [fold_left].
    rewrite <- !enabled_app, !power_on_calls_on. reflexivity.
  - intros x. apply power_off_calls_off.
  - reflexivity.
Qed.

Lemma start_then_stop_is_balanced_witness :
  all_off (history (after (imx377_stop_streaming hw_ok
                             (after (imx377_start_streaming hw_ok idle))))) /\
  priv (after (imx377_stop_streaming hw_ok
                 (after (imx377_start_streaming hw_ok idle)))) = board.
Proof.
  destruct (start_then_stop_is_balanced hw_ok idle)
    as (es1 & es2 & H1 & H2 & Hn & Hi & Hoff & Hp).
  - reflexivity.
  - split; [exact Hoff | exact Hp].
Defined.

(** X11.  [imx377_stop_streaming] does not look at the streaming flag or at
    the power state: on a device whose resources are all off, as after the
    probe or after a failed start, it still sends the mode-select write and
    then disables all four resources, each of which is already off. *)
Theorem stop_streaming_on_powered_off_device :
  forall hw m,
    let run := imx377_stop_streaming hw m in
    all_off (history m) ->
    exists moved,
      history (after run) =
        history m
        ++ [Returned (i2c_master_send [0x01; 0x00; 0x00] 3) moved]
        ++ power_off_calls (priv m) /\
      idle_disables (history m)
        ([Returned (i2c_master_send [0x01; 0x00; 0x00] 3) moved]
         ++ power_off_calls (priv m)) =
        [Clock xclk; Rail dovdd; Rail avdd; Rail dvdd].
Proof.
  intros hw m run Hoff. subst run. rewrite stop_streaming_run. cbv zeta.
  unfold after. cbn [snd history].
  eexists. split; [rewrite <- app_assoc; reflexivity|].
  fold stream_off_send. rewrite idle_disables_stop.
  cbn [power_steps rev app filter]. rewrite !Hoff. reflexivity.
Qed.

Lemma stop_streaming_on_powered_off_device_witness :
  let failed := after (imx377_start_streaming hw_mode_select_nack idle) in
  exists moved,
    idle_disables (history failed)
      ([Returned (i2c_master_send [0x01; 0x00; 0x00] 3) moved]
       ++ power_off_calls (priv failed)) =
      [Clock xclk; Rail dovdd; Rail avdd; Rail dvdd].
Proof.
  cbv zeta.
  destruct (stop_streaming_on_powered_off_device hw_ok
              (after (imx377_start_streaming hw_mode_select_nack idle)))
    as (moved & Hh & Hi).
  - intros [[ | | ]|[]]; reflexivity.
  - exists moved. exact Hi.
Defined.

(** ** Controls, continued *)

Lemma lor_status_sign a b :
  a <= 0 -> b <= 0 ->
  Z.lor a b <= 0 /\ (Z.lor a b = 0 <-> a = 0 /\ b = 0).
Proof.
  intros Ha Hb. split; [|apply Z.lor_eq_0_iff].
  destruct (Z.eq_dec a 0) as [->|Na].
  - now rewrite Z.lor_0_l.
  - assert (Z.lor a b < 0) by (apply Z.lor_neg; lia). lia.
Qed.

(** X12.  On a streaming device, for the exposure and for the gain, the
    status of [imx377_set_ctrl] is 0 exactly when the bus reported both sends
    complete, and negative otherwise: combining the two statuses never
    reports a failure as a success, nor yields a positive value. *)
Theorem set_ctrl_status_sign :
  forall hw m ctrl,
    let run := imx377_set_ctrl hw ctrl m in
    streaming (priv m) = true ->
    id ctrl = V4L2_CID_EXPOSURE \/ id ctrl = V4L2_CID_ANALOGUE_GAIN ->
    exists c1 c2 moved1 moved2,
      history (after run) =
        history m ++ [Returned c1 moved1; Returned c2 moved2] /\
      result run <= 0 /\
      (result run = 0 <-> moved1 = 3 /\ moved2 = 3).
Proof.
  intros hw m [i v] run Hs Hid. subst run. cbn [id] in Hid.
  destruct Hid as [-> | ->];
    [rewrite (set_ctrl_exposure_run hw m v Hs)
    |rewrite (set_ctrl_gain_run hw m v Hs)];
    cbv zeta; unfold result, after; cbn [fst snd priv history];
    eexists _, _, _, _; (split; [reflexivity|]);
    match goal with |- context [Z.lor (write_status ?a) (write_status ?b)] =>
      pose proof (write_status_sign a) as [Ha Ha'];
      pose proof (write_status_sign b) as [Hb Hb'];
      pose proof (lor_status_sign _ _ Ha Hb) as [Hle Hiff]
    end; (split; [exact Hle|]); rewrite Hiff, Ha', Hb'; reflexivity.
Qed.

Lemma set_ctrl_status_sign_witness :
  result (imx377_set_ctrl hw_both_fail
            {| id := V4L2_CID_ANALOGUE_GAIN; val := 500 |} live) <= 0 /\
  result (imx377_set_ctrl hw_ok
            {| id := V4L2_CID_ANALOGUE_GAIN; val := 500 |} live) = 0.
Proof.
  destruct (set_ctrl_status_sign hw_both_fail live
              {| id := V4L2_CID_ANALOGUE_GAIN; val := 500 |})
    as (c1 & c2 & s1 & s2 & Hh & Hle & Hiff);
    [reflexivity | right; reflexivity |].
  destruct (set_ctrl_status_sign hw_ok live
              {| id := V4L2_CID_ANALOGUE_GAIN; val := 500 |})
    as (d1 & d2 & t1 & t2 & Hh' & Hle' & Hiff');
    [reflexivity | right; reflexivity |].
  split; [exact Hle | reflexivity].
Defined.

Lemma split_bytes_16 v :
  Z.land (Z.shiftr v 8) 0xFF * 256 + Z.land v 0xFF = v mod 65536.
Proof.
  change 0xFF with (Z.ones 8). rewrite !Z.land_ones by lia.
  rewrite Z.shiftr_div_pow2 by lia. change (2 ^ 8) with 256.
  pose proof (Z.div_mod v 256 ltac:(lia)) as Hv.
  pose proof (Z.div_mod (v / 256) 256 ltac:(lia)) as Hq.
  pose proof (Z.mod_pos_bound v 256 ltac:(lia)).
  pose proof (Z.mod_pos_bound (v / 256) 256 ltac:(lia)).
  apply Z.mod_unique with (q := v / 256 / 256); lia.
Qed.

Lemma split_bytes_11 v :
  Z.land (Z.shiftr v 8) 0x07 * 256 + Z.land v 0xFF = v mod 2048.
Proof.
  change 0xFF with (Z.ones 8). change 0x07 with (Z.ones 3).
  rewrite !Z.land_ones by lia.
  rewrite Z.shiftr_div_pow2 by lia. change (2 ^ 8) with 256. change (2 ^ 3) with 8.
  pose proof (Z.div_mod v 256 ltac:(lia)) as Hv.
  pose proof (Z.div_mod (v / 256) 8 ltac:(lia)) as Hq.
  pose proof (Z.mod_pos_bound v 256 ltac:(lia)).
  pose proof (Z.mod_pos_bound (v / 256) 8 ltac:(lia)).
  apply Z.mod_unique with (q := v / 256 / 8); lia.
Qed.

(** X13.  The two bytes written for an exposure [v] hold [v] modulo 65536:
    taken as high and low byte they give back every value from 0 to 0xFFFF,
    so the whole range the probe declares for the control, and any bit above
    the sixteenth is dropped. *)
Theorem set_ctrl_exposure_keeps_16_bits :
  forall hw m v,
    let run := imx377_set_ctrl hw {| id := V4L2_CID_EXPOSURE; val := v |} m in
    streaming (priv m) = true ->
    exists high low s1 s2,
      history (after run) =
        history m ++ [Returned (i2c_master_send [0x30; 0x0B; high] 3) s1;
                      Returned (i2c_master_send [0x30; 0x0C; low] 3) s2] /\
      high * 256 + low = v mod 65536 /\
      (0 <= v <= 0xFFFF -> high * 256 + low = v).
Proof.
  intros hw m v run Hs. subst run.
  rewrite (set_ctrl_exposure_run hw m v Hs). cbv zeta.
  unfold after. cbn [snd priv history].
  eexists _, _, _, _. split; [reflexivity|].
  split; [apply split_bytes_16|].
  intros Hv. rewrite split_bytes_16. apply Z.mod_small. lia.
Qed.

Lemma set_ctrl_exposure_keeps_16_bits_witness :
  exists high low s1 s2,
    history (after (imx377_set_ctrl hw_ok
                      {| id := V4L2_CID_EXPOSURE; val := 0x03E8 |} live)) =
      history live ++ [Returned (i2c_master_send [0x30; 0x0B; high] 3) s1;
                       Returned (i2c_master_send [0x30; 0x0C; low] 3) s2] /\
    high * 256 + low = 0x03E8.
Proof.
  destruct (set_ctrl_exposure_keeps_16_bits hw_ok live 0x03E8)
    as (high & low & s1 & s2 & Hh & Hmod & Hin); [reflexivity|].
  exists high, low, s1, s2. split; [exact Hh | apply Hin; lia].
Defined.

(** X14.  The two bytes written for a gain [v] hold [v] modulo 2048: a gain
    above the 11 bits of the register pair is not refused but wraps, so that
    0x800 is written as 0. *)
Theorem set_ctrl_gain_keeps_11_bits :
  forall hw m v,
    let run := imx377_set_ctrl hw {| id := V4L2_CID_ANALOGUE_GAIN; val := v |} m in
    streaming (priv m) = true ->
    exists high low s1 s2,
      history (after run) =
        history m ++ [Returned (i2c_master_send [0x30; 0x09; high] 3) s1;
                      Returned (i2c_master_send [0x30; 0x0A; low] 3) s2] /\
      high * 256 + low = v mod 2048 /\
      (v = 0x800 -> high = 0 /\ low = 0).
Proof.
  intros hw m v run Hs. subst run.
  rewrite (set_ctrl_gain_run hw m v Hs). cbv zeta.
  unfold after. cbn [snd priv history].
  eexists _, _, _, _. split; [reflexivity|].
  split; [apply split_bytes_11|].
  intros ->. split; reflexivity.
Qed.

Lemma set_ctrl_gain_keeps_11_bits_witness :
  exists s1 s2,
    history (after (imx377_set_ctrl hw_ok
                      {| id := V4L2_CID_ANALOGUE_GAIN; val := 0x800 |} live)) =
      history live ++ [Returned (i2c_master_send [0x30; 0x09; 0x00] 3) s1;
                       Returned (i2c_master_send [0x30; 0x0A; 0x00] 3) s2].
Proof.
  destruct (set_ctrl_gain_keeps_11_bits hw_ok live 0x800)
    as (high & low & s1 & s2 & Hh & Hmod & Hz); [reflexivity|].
  destruct (Hz eq_refl) as [-> ->]. exists s1, s2. exact Hh.
Defined.

(** X15.  Whatever the control, the value, the state of the device and the
    answers of the bus, [imx377_set_ctrl] leaves the driver's record as it
    is, makes no call or exactly two, and turns no power resource on or
    off. *)
Theorem set_ctrl_keeps_record_and_power :
  forall hw m ctrl,
    let run := imx377_set_ctrl hw ctrl m in
    priv (after run) = priv m /\
    exists es,
      history (after run) = history m ++ es /\
      (es = [] \/ length es = 2%nat) /\
      forall x, enabled (history (after run)) x = enabled (history m) x.
Proof.
  intros hw m [i v] run. subst run.
  destruct (streaming (priv m)) eqn:Hs.
  - destruct (Z.eq_dec i V4L2_CID_EXPOSURE) as [->|Ne];
      [|destruct (Z.eq_dec i V4L2_CID_ANALOGUE_GAIN) as [->|Ng]].
    + rewrite (set_ctrl_exposure_run hw m v Hs). cbv zeta.
      unfold after. cbn [snd priv history]. split; [reflexivity|].
      eexists. split; [reflexivity|]. split; [right; reflexivity|].
      intros x. rewrite enabled_app. reflexivity.
    + rewrite (set_ctrl_gain_run hw m v Hs). cbv zeta.
      unfold after. cbn [snd priv history]. split; [reflexivity|].
      eexists. split; [reflexivity|]. split; [right; reflexivity|].
      intros x. rewrite enabled_app. reflexivity.
    + unfold imx377_set_ctrl, bind, get_priv, ret, after.
      rewrite Hs. cbn [negb id].
      apply Z.eqb_neq in Ne, Ng. rewrite Ne, Ng. cbn [snd].
      split; [reflexivity|]. exists []. rewrite app_nil_r. auto.
  - unfold imx377_set_ctrl, bind, get_priv, ret, after.
    rewrite Hs. cbn [negb snd].
    split; [reflexivity|]. exists []. rewrite app_nil_r. auto.
Qed.

(** ** Format negotiation *)

(** X16.  [imx377_set_fmt] takes nothing from the request: whatever
    geometry and code are asked for, whether the request is a trial or the
    active format, and whatever the current mode was, it selects the default
    mode in the driver's record and answers 4056 x 3040, code 0x3012, no
    field, raw colorspace, with status 0.  It passes the other words of the
    request through, makes no call and leaves the streaming flag alone. *)
Theorem set_fmt_ignores_request :
  forall m fmt,
    let run := imx377_set_fmt fmt m in
    let out := snd (result run) in
    fst (result run) = 0 /\
    (mbus.width (format out), mbus.height (format out), mbus.code (format out))
      = (4056, 3040, 0x3012) /\
    (mbus.field (format out), mbus.colorspace (format out))
      = (V4L2_FIELD_NONE, V4L2_COLORSPACE_RAW) /\
    (which out, pad out) = (which fmt, pad fmt) /\
    (mbus.ycbcr_enc (format out), mbus.quantization (format out),
     mbus.xfer_func (format out), mbus.flags (format out))
      = (mbus.ycbcr_enc (format fmt), mbus.quantization (format fmt),
         mbus.xfer_func (format fmt), mbus.flags (format fmt)) /\
    cur_mode (priv (after run)) = imx377_default_mode /\
    streaming (priv (after run)) = streaming (priv m) /\
    (reset_gpio (priv (after run)), pwdn_gpio (priv (after run)))
      = (reset_gpio (priv m), pwdn_gpio (priv m)) /\
    history (after run) = history m.
Proof.
  intros m fmt run out. subst out run.
  unfold imx377_set_fmt, imx377_get_fmt, put_cur_mode, bind, get_priv, ret,
    result, after.
  cbn. repeat split.
Qed.

(** X17.  After [imx377_set_fmt], [imx377_get_fmt] gives the same answer
    and changes nothing, and a second [imx377_set_fmt], with any request that
    has the same untouched words, gives the same answer and the same
    machine: the negotiation settles at once. *)
Theorem set_fmt_then_get_fmt_is_stable :
  forall m fmt,
    let set := imx377_set_fmt fmt m in
    let get := imx377_get_fmt (snd (result set)) (after set) in
    let again := imx377_set_fmt (snd (result set)) (after set) in
    get = set /\ again = set.
Proof.
  intros m fmt set get again. subst again get set.
  unfold imx377_set_fmt, imx377_get_fmt, put_cur_mode, bind, get_priv, ret,
    result, after.
  cbn. split; reflexivity.
Qed.

(** ** Probe *)

Lemma IS_ERR_range p : Probe.IS_ERR p = true <-> - 4095 <= p <= -1.
Proof.
  unfold Probe.IS_ERR, Probe.MAX_ERRNO. rewrite andb_true_iff.
  rewrite Z.leb_le, Z.ltb_lt. lia.
Qed.

Lemma probe_success_run fw h :
  fst (fst (Probe.imx377_probe fw h)) = 0 ->
  exists p a d o x rg pg,
    Probe.imx377_probe fw h =
      (0, Some (Probe.probed rg pg),
       h ++ Probe.success_calls p a d o x rg pg) /\
    p <> 0 /\
    Probe.IS_ERR a || Probe.IS_ERR d || Probe.IS_ERR o = false /\
    Probe.IS_ERR x = false.
Proof.
  probe_unfold.
  probe_branch; [intros H; discriminate H|].
  probe_branch; [intros H; discriminate H|].
  probe_branch; [intros H; discriminate H|].
  probe_branch; [intros H; rewrite H in E2; discriminate E2|].
  probe_branch; [intros H; rewrite H in E3; discriminate E3|].
  probe_branch; [intros H; rewrite H in E4; discriminate E4|].
  intros _.
  apply negb_false_iff, Z.eqb_eq in E2, E3, E4.
  apply Z.eqb_neq in E.
  rewrite E4, E3, E2. flat. flat in E0. flat in E1.
  eexists _, _, _, _, _, _, _.
  split; [unfold Probe.success_calls; reflexivity|].
  split; [exact E|]. split; [exact E0 | exact E1].
Qed.

(** X18.  A probe that returns 0 has made exactly the calls of the success
    path, in their order: the allocation, the three supply lookups, the clock
    lookup and the 24 MHz rate, the two line lookups, the control handler
    with the gain declared from 0 to 0x7A5 and the exposure from 1 to 0xFFFF
    with default 0x03E8, the sub-device, the pad and the registration.  The
    record it leaves is not streaming and has the default mode; it has
    enabled nothing. *)
Theorem probe_success_sequence :
  forall fw h,
    let run := Probe.imx377_probe fw h in
    fst (fst run) = 0 ->
    exists p a d o x rg pg,
      snd run = h ++ Probe.success_calls p a d o x rg pg /\
      p <> 0 /\
      Probe.IS_ERR a = false /\ Probe.IS_ERR d = false /\
      Probe.IS_ERR o = false /\ Probe.IS_ERR x = false /\
      snd (fst run) = Some (Probe.probed rg pg) /\
      streaming (Probe.probed rg pg) = false /\
      cur_mode (Probe.probed rg pg) = imx377_default_mode.
Proof.
  intros fw h run Hok. subst run.
  destruct (probe_success_run fw h Hok)
    as (p & a & d & o & x & rg & pg & Hrun & Hp & Hreg & Hclk).
  apply orb_false_iff in Hreg as [Hreg Ho].
  apply orb_false_iff in Hreg as [Ha Hd].
  exists p, a, d, o, x, rg, pg. rewrite Hrun. cbn [fst snd].
  repeat (split; [first [assumption | reflexivity]|]). reflexivity.
Qed.

Lemma probe_success_sequence_witness :
  exists p a d o x rg pg,
    snd (Probe.imx377_probe Probe.fw_ok []) =
      [] ++ Probe.success_calls p a d o x rg pg /\
    snd (fst (Probe.imx377_probe Probe.fw_ok [])) = Some board.
Proof.
  destruct (probe_success_sequence Probe.fw_ok [])
    as (p & a & d & o & x & rg & pg & Hh & _); [reflexivity|].
  exists p, a, d, o, x, rg, pg. split; [exact Hh | reflexivity].
Defined.

(** X19.  A failed lookup of a supply or of the clock is always reported as
    [-EPROBE_DEFER], whatever error the lookup gave.  The three supplies are
    looked up before any of them is tested, so a failure of the first still
    costs the other two lookups; nothing is called after the failed test. *)
Theorem probe_lookup_errors_become_defer :
  forall fw h,
    let p := fw h Probe.devm_kzalloc in
    let h1 := h ++ [Probe.Got Probe.devm_kzalloc p; Probe.Did Probe.mutex_init] in
    let a := fw h1 (Probe.devm_regulator_get avdd) in
    let h2 := h1 ++ [Probe.Got (Probe.devm_regulator_get avdd) a] in
    let d := fw h2 (Probe.devm_regulator_get dvdd) in
    let h3 := h2 ++ [Probe.Got (Probe.devm_regulator_get dvdd) d] in
    let o := fw h3 (Probe.devm_regulator_get dovdd) in
    let h4 := h3 ++ [Probe.Got (Probe.devm_regulator_get dovdd) o] in
    let x := fw h4 (Probe.devm_clk_get xclk) in
    p <> 0 ->
    (Probe.IS_ERR a = true \/ Probe.IS_ERR d = true \/ Probe.IS_ERR o = true ->
     Probe.imx377_probe fw h = (- Probe.EPROBE_DEFER, None, h4)) /\
    (Probe.IS_ERR a = false -> Probe.IS_ERR d = false ->
     Probe.IS_ERR o = false -> Probe.IS_ERR x = true ->
     Probe.imx377_probe fw h =
       (- Probe.EPROBE_DEFER, None,
        h4 ++ [Probe.Got (Probe.devm_clk_get xclk) x])).
Proof.
  intros fw h. cbv zeta. intros Hp. apply Z.eqb_neq in Hp.
  split; [intros H | intros Ha Hd Ho Hx]; probe_unfold; rewrite Hp.
  - probe_branch.
    + flat. reflexivity.
    + exfalso. flat in E. flat in H.
      destruct H as [H|[H|H]]; rewrite H in E; rewrite ?orb_true_r in E;
        discriminate E.
  - probe_branch.
    + exfalso. flat in E. flat in Ha. flat in Hd. flat in Ho.
      rewrite Ha, Hd, Ho in E. discriminate E.
    + probe_branch.
      * flat. reflexivity.
      * exfalso. flat in E0. flat in Hx. rewrite Hx in E0. discriminate E0.
Qed.

Lemma probe_lookup_errors_become_defer_witness :
  fst (fst (Probe.imx377_probe Probe.fw_no_avdd [])) = - Probe.EPROBE_DEFER /\
  fst (fst (Probe.imx377_probe Probe.fw_no_clk [])) = - Probe.EPROBE_DEFER /\
  snd (Probe.imx377_probe Probe.fw_no_avdd []) =
    [Probe.Got Probe.devm_kzalloc 0x1000; Probe.Did Probe.mutex_init;
     Probe.Got (Probe.devm_regulator_get avdd) (-19);
     Probe.Got (Probe.devm_regulator_get dvdd) 0x2100;
     Probe.Got (Probe.devm_regulator_get dovdd) 0x2200].
Proof.
  destruct (probe_lookup_errors_become_defer Probe.fw_no_avdd [])
    as [Hreg _]; [vm_compute; discriminate|].
  destruct (probe_lookup_errors_become_defer Probe.fw_no_clk [])
    as [_ Hclk]; [vm_compute; discriminate|].
  rewrite Hreg by (left; reflexivity).
  rewrite Hclk by reflexivity.
  repeat split.
Defined.

(** X20.  The probe never calls [v4l2_ctrl_handler_free],
    [media_entity_cleanup] or [v4l2_async_unregister_subdev]: when it fails
    after the control handler has been set up, on the handler's error, at the
    pad or at the registration, what it has set up is left as it is.  A
    failing probe hands out no record. *)
Theorem probe_never_takes_down :
  forall fw h,
    let run := Probe.imx377_probe fw h in
    exists es,
      snd run = h ++ es /\
      Probe.collect Probe.taken_down_by es = [] /\
      (fst (fst run) <> 0 -> snd (fst run) = None).
Proof.
  intros fw h run. subst run. probe_unfold.
  repeat probe_branch;
    (eexists; split; [rewrite <- ?app_assoc; cbn [app]; reflexivity|];
     split; [reflexivity|]; first [reflexivity | intros H; now elim H]).
Qed.

(** X21.  The probe does not test what the lookup of an optional line
    returned: an error pointer does not fail it and is kept like the
    descriptor of a line that is there, so that [imx377_power_on] later
    drives that line. *)
Theorem probe_keeps_error_pointer_line :
  forall fw h,
    let run := Probe.imx377_probe fw h in
    fst (fst run) = 0 ->
    exists es rg pg,
      snd run = h ++ es /\
      In (Probe.Got (Probe.devm_gpiod_get_optional reset_line
                       Probe.GPIOD_OUT_LOW) rg) es /\
      In (Probe.Got (Probe.devm_gpiod_get_optional pwdn_line
                       Probe.GPIOD_OUT_HIGH) pg) es /\
      snd (fst run) = Some (Probe.probed rg pg) /\
      (Probe.IS_ERR rg = true ->
       reset_gpio (Probe.probed rg pg) = Some reset_line /\
       forall hw hist,
         let on := imx377_power_on hw
                     {| priv := Probe.probed rg pg; history := hist |} in
         result on = 0 ->
         In (Done (gpiod_set_value_cansleep reset_line 1)) (history (after on))).
Proof.
  intros fw h run Hok.
  destruct (probe_success_run fw h Hok)
    as (p & a & d & o & x & rg & pg & Hrun & _).
  assert (Hh : snd run = h ++ Probe.success_calls p a d o x rg pg)
    by (subst run; now rewrite Hrun).
  assert (Hp : snd (fst run) = Some (Probe.probed rg pg))
    by (subst run; now rewrite Hrun).
  exists (Probe.success_calls p a d o x rg pg), rg, pg.
  split; [exact Hh|].
  split; [unfold Probe.success_calls; cbn; tauto|].
  split; [unfold Probe.success_calls; cbn; tauto|].
  split; [exact Hp|].
  intros Herr. apply IS_ERR_range in Herr.
  assert (Hrg : (rg =? 0) = false) by (apply Z.eqb_neq; lia).
  assert (Hline : reset_gpio (Probe.probed rg pg) = Some reset_line)
    by (unfold Probe.probed; cbn [reset_gpio]; now rewrite Hrg).
  split; [exact Hline|].
  intros hw hist on Hon. subst on.
  rewrite (power_on_success _ _ Hon). cbn [priv history].
  unfold power_on_calls. rewrite Hline. cbn [line_calls].
  apply in_or_app. right. apply in_or_app. right.
  apply in_or_app. left. left. reflexivity.
Qed.

Lemma probe_keeps_error_pointer_line_witness :
  fst (Probe.imx377_probe Probe.fw_bad_reset []) = (0, Some board).
Proof.
  destruct (probe_keeps_error_pointer_line Probe.fw_bad_reset [])
    as (es & rg & pg & Hh & Hr & Hpg & Hp & Hline); [reflexivity|].
  reflexivity.
Defined.



(** A trial request for 640 x 480 on the streaming board is answered with
    the sensor's one geometry, and the trial has written the driver's
    record. *)
Example set_fmt_vga_request :
  let run := imx377_set_fmt vga_request live in
  mbus.width (format (snd (result run))) = 4056 /\
  mbus.height (format (snd (result run))) = 3040 /\
  which (snd (result run)) = V4L2_SUBDEV_FORMAT_TRY /\
  after run = live.
Proof. repeat split. Qed.
